(** * The add-student wizard ([frontend/src/components/AddStudent.tsx])

    A shallow embedding of the three-step wizard of the mentor dashboard:
    its local state, the [handleNext] validation, the "Previous" buttons and
    the asynchronous [handleSubmit] with its two backend calls
    ([apiAddStudent], then [apiPredictRisk]) and the [onStudentAdded]
    callback.

    Layout:
    - [JS]: the fragment of JavaScript the component relies on: numbers as
      IEEE 754 binary64 values, [parseInt], [parseFloat], [Number],
      truthiness, [toLowerCase], [trim];
    - [Wizard]: the data model, the event handlers, an effect tree for
      asynchronous handlers with its two interpreters (a run against a
      backend, and the event loop of the mounted component);
    - [Samples]: concrete drafts, backends and component states;
    - [Statements]: the predicates the properties are stated with;
    - the properties: what the interpreters preserve, the request sent to
      the backend, the checks of step 2, the two calls and their order,
      "Previous", tier and score, the step index, the mentor id. *)

(** Beside the wizard the file covers its neighbours: what the wizard
    draws and the invariant of its states ([Screen]), the mentor
    registration form with its address pattern ([Regex], [Register]), the
    validated input ([ValidatedInput]) and the views of the application
    ([App]), each followed further down by its properties. *)

From Stdlib Require Import ZArith Lia List String Ascii Bool.
From Stdlib Require Import SpecFloat DecimalString.
Import ListNotations.

Set Implicit Arguments.
Local Open Scope string_scope.

(* ================================================================== *)
(** ** JavaScript values used by the component *)
(* ================================================================== *)

Module JS.

(** A JavaScript [number] is a binary64 floating-point value. *)
Definition number : Type := spec_float.

Definition prec : Z := 53.
Definition emax : Z := 1024.

Definition NaN : number := S754_nan.
Definition Infinity (neg : bool) : number := S754_infinity neg.

(** The number denoted by an integer literal, rounded to nearest-even;
    [negz] is the sign given to a zero result. *)
Definition of_Z_signed (z : Z) (negz : bool) : number :=
  binary_normalize prec emax z 0 negz.

Definition of_Z (z : Z) : number := of_Z_signed z false.

(** [a < b] and [a > b]: both are [false] as soon as one side is [NaN]. *)
Definition lt (a b : number) : bool := SFltb a b.
Definition gt (a b : number) : bool := SFltb b a.

(** ToBoolean on numbers and on strings. *)
Definition truthy_number (n : number) : bool :=
  match n with
  | S754_nan | S754_zero _ => false
  | _ => true
  end.

Definition truthy (s : string) : bool :=
  match s with
  | EmptyString => false
  | String _ _ => true
  end.

(** [a || b] on numbers. *)
Definition or_number (a b : number) : number :=
  if truthy_number a then a else b.

(** [a || b] on strings. *)
Definition or_string (a b : string) : string :=
  if truthy a then a else b.

(** The value [(-1)^neg * m * 10^e10] rounded to the nearest binary64
    (ties to even).  For a negative decimal exponent the quotient is
    computed with more than [prec] bits and the position of the remainder
    is handed to the rounding function. *)
Definition of_decimal (neg : bool) (m e10 : Z) : number :=
  match m with
  | Zpos p =>
      if (0 <=? e10)%Z then
        if (400 <? e10)%Z then S754_infinity neg
        else binary_normalize prec emax
               (if neg then - (m * 10 ^ e10) else m * 10 ^ e10)%Z 0 neg
      else if (400 + Z.log2 m <? - e10)%Z then S754_zero neg
      else
        let d := (10 ^ (- e10))%Z in
        let s := Z.max 0 (Z.log2 d + 66 - Z.log2 m) in
        let n := (m * 2 ^ s)%Z in
        let q := (n / d)%Z in
        let r := (n mod d)%Z in
        let loc := if (r =? 0)%Z then loc_Exact
                   else loc_Inexact (2 * r ?= d)%Z in
        binary_round_aux prec emax neg q (- s) loc
  | _ => S754_zero neg
  end.

(** *** Strings

    Strings are sequences of 8-bit characters; white space and letter case
    are those of ASCII. *)

Definition code (c : ascii) : Z := Z.of_N (N_of_ascii c).

Definition is_space (c : ascii) : bool :=
  let n := code c in
  ((9 <=? n) && (n <=? 13) || (n =? 32))%Z.

Fixpoint trimStart (s : string) : string :=
  match s with
  | String c r => if is_space c then trimStart r else s
  | EmptyString => EmptyString
  end.

Fixpoint trimEnd (s : string) : string :=
  match s with
  | String c r =>
      match trimEnd r with
      | EmptyString => if is_space c then EmptyString else String c EmptyString
      | r' => String c r'
      end
  | EmptyString => EmptyString
  end.

Definition trim (s : string) : string := trimEnd (trimStart s).

Definition lower_char (c : ascii) : ascii :=
  let n := code c in
  if ((65 <=? n) && (n <=? 90))%Z then ascii_of_N (N_of_ascii c + 32) else c.

Fixpoint toLowerCase (s : string) : string :=
  match s with
  | String c r => String (lower_char c) (toLowerCase r)
  | EmptyString => EmptyString
  end.

(** *** Numeric literals *)

(** The value of a digit in radix [radix], when it is one. *)
Definition digit_value (radix : Z) (c : ascii) : option Z :=
  let n := code c in
  let v := if ((48 <=? n) && (n <=? 57))%Z then (n - 48)%Z
           else if ((97 <=? n) && (n <=? 122))%Z then (n - 87)%Z
           else if ((65 <=? n) && (n <=? 90))%Z then (n - 55)%Z
           else 36%Z in
  if (v <? radix)%Z then Some v else None.

(** Longest prefix of radix-[radix] digits: its value (folded into [acc]),
    the number of digits read, the rest of the string. *)
Fixpoint read_digits (radix : Z) (s : string) (acc cnt : Z) : Z * Z * string :=
  match s with
  | String c r =>
      match digit_value radix c with
      | Some v => read_digits radix r (acc * radix + v)%Z (cnt + 1)%Z
      | None => (acc, cnt, s)
      end
  | EmptyString => (acc, cnt, s)
  end.

Definition read_sign (s : string) : bool * string :=
  match s with
  | String "-" r => (true, r)
  | String "+" r => (false, r)
  | _ => (false, s)
  end.

(** [ExponentPart]: [e] or [E], an optional sign, at least one digit.
    Without a digit the exponent is not part of the literal. *)
Definition read_exponent (s : string) : Z * string :=
  match s with
  | String c r =>
      if (c =? "e")%char || (c =? "E")%char then
        let '(neg, r1) := read_sign r in
        let '(v, cnt, r2) := read_digits 10 r1 0 0 in
        if (0 <? cnt)%Z then ((if neg then - v else v)%Z, r2) else (0%Z, s)
      else (0%Z, s)
  | EmptyString => (0%Z, s)
  end.

(** Longest prefix that is a [StrDecimalLiteral] (sign, then [Infinity] or
    digits with an optional fraction and exponent): its value and the rest
    of the string; [None] when there is no such prefix. *)
Definition read_decimal (s : string) : option (number * string) :=
  let '(neg, s1) := read_sign s in
  if String.prefix "Infinity" s1 then
    Some (Infinity neg, substring 8 (String.length s1 - 8) s1)
  else
    let '(i, ni, s2) := read_digits 10 s1 0 0 in
    let '(m, nf, s3) :=
      match s2 with
      | String "." r =>
          let '(m, nf, r') := read_digits 10 r i 0 in
          if (0 <? ni + nf)%Z then (m, nf, r') else (i, 0%Z, s2)
      | _ => (i, 0%Z, s2)
      end in
    if (ni + nf =? 0)%Z then None
    else
      let '(e, s4) := read_exponent s3 in
      Some (of_decimal neg m (e - nf), s4).

(** [parseFloat(s)]. *)
Definition parseFloat (s : string) : number :=
  match read_decimal (trimStart s) with
  | Some (n, _) => n
  | None => NaN
  end.

(** [parseInt(s)], radix not given: radix 16 after a [0x] prefix, else 10;
    the longest prefix of digits is read and [NaN] is the result when it is
    empty. *)
Definition parseInt (s : string) : number :=
  let '(neg, s1) := read_sign (trimStart s) in
  let '(radix, s2) :=
    match s1 with
    | String "0" (String c r) =>
        if (c =? "x")%char || (c =? "X")%char then (16%Z, r) else (10%Z, s1)
    | _ => (10%Z, s1)
    end in
  let '(v, cnt, _) := read_digits radix s2 0 0 in
  if (cnt =? 0)%Z then NaN
  else of_Z_signed (if neg then - v else v) neg.

(** [Number(s)] on a string: the whole trimmed string has to be a numeric
    literal; the empty string is [0]. *)
Definition radix_prefix (s : string) : option (Z * string) :=
  match s with
  | String "0" (String c r) =>
      if (c =? "x")%char || (c =? "X")%char then Some (16%Z, r)
      else if (c =? "o")%char || (c =? "O")%char then Some (8%Z, r)
      else if (c =? "b")%char || (c =? "B")%char then Some (2%Z, r)
      else None
  | _ => None
  end.

Definition StringToNumber (s : string) : number :=
  let t := trim s in
  match t with
  | EmptyString => of_Z 0
  | _ =>
      match radix_prefix t with
      | Some (radix, r) =>
          match read_digits radix r 0 0 with
          | (v, cnt, EmptyString) => if (cnt =? 0)%Z then NaN else of_Z v
          | _ => NaN
          end
      | None =>
          match read_decimal t with
          | Some (n, EmptyString) => n
          | _ => NaN
          end
      end
  end.

(** The values an identifier can hold. *)
Inductive value : Type :=
| VUndefined
| VNull
| VString (s : string)
| VNumber (n : number).

(** [Number(v)]. *)
Definition Number (v : value) : number :=
  match v with
  | VUndefined => NaN
  | VNull => of_Z 0
  | VString s => StringToNumber s
  | VNumber n => n
  end.

End JS.

(* ================================================================== *)
(** ** The wizard *)
(* ================================================================== *)

Module Wizard.
Import JS.
Local Open Scope list_scope.

(** *** Data model *)

(** [role: 'student' | 'parent'] *)
Inductive Role : Type := RoleStudent | RoleParent.

(** [feeStatus: 'paid' | 'pending' | 'overdue' | ''] *)
Inductive FeeStatus : Type := FeeUnset | FeePaid | FeePending | FeeOverdue.

Definition role_eqb (a b : Role) : bool :=
  match a, b with
  | RoleStudent, RoleStudent | RoleParent, RoleParent => true
  | _, _ => false
  end.

Definition fee_eqb (a b : FeeStatus) : bool :=
  match a, b with
  | FeeUnset, FeeUnset | FeePaid, FeePaid
  | FeePending, FeePending | FeeOverdue, FeeOverdue => true
  | _, _ => false
  end.

(** [!feeStatus]: only the empty string is falsy. *)
Definition fee_truthy (f : FeeStatus) : bool := negb (fee_eqb f FeeUnset).

(** The draft: every field is the raw text of its input. *)
Record StudentData : Type := {
  name : string;
  email : string;
  role : Role;
  parentName : string;
  parentEmail : string;
  cgpa : string;
  attendance : string;
  feeStatus : FeeStatus;
  backlogs : string
}.

(** Modelled from the spec: the current user of the authentication
    context ([AuthContext.tsx] is not among the sources), with the two
    fields the component reads, [user?.id] and [user?.name]; [None] when
    nobody is signed in. *)
Record User : Type := {
  user_id : value;
  user_name : string
}.

(** The argument of [apiAddStudent]. *)
Record AddStudentRequest : Type := {
  req_full_name : string;
  req_email : string;
  req_account_type : string;
  req_parent_name : option string;
  req_parent_email : option string;
  req_current_cgpa : number;
  req_attendance_percentage : number;
  req_fee_status : string;
  req_backlogs : number;
  req_mentor_id : number
}.

(** Modelled from the spec: the record [apiAddStudent] resolves to
    ([lib/api.ts] is not among the sources): identifier, name, email and the
    academic fields.  The identifier is taken to be a natural number, and
    [String(created.id)] its decimal numeral. *)
Record Created : Type := {
  created_id : N;
  created_full_name : string;
  created_email : string;
  created_current_cgpa : number;
  created_attendance_percentage : number;
  created_fee_status : string;
  created_backlogs : number
}.

(** The argument of [apiPredictRisk]. *)
Record PredictRiskRequest : Type := {
  risk_current_cgpa : number;
  risk_attendance_percentage : number;
  risk_fee_status : string;
  risk_backlogs : number
}.

(** Modelled from the spec: what [apiPredictRisk] resolves to,
    [{risk_level: string}]. *)
Record RiskResponse : Type := { risk_level : string }.

Record CounselingNote : Type := {
  note_id : string;
  note_date : string;
  mentorName : string;
  note : string;
  note_type : string;
  isPrivate : bool
}.

(** [StudentRecord], as handed to [onStudentAdded].  [dropoutRisk] is typed
    ['low' | 'medium' | 'high'] in the source but holds whatever string the
    cast [as] lets through; [riskScore] holds one of the integer literals
    of the handler. *)
Record StudentRecord : Type := {
  rec_id : string;
  rec_name : string;
  rec_email : string;
  rec_cgpa : number;
  rec_attendance : number;
  rec_feeStatus : FeeStatus;
  rec_backlogs : number;
  dropoutRisk : string;
  riskScore : Z;
  counselingNotes : list CounselingNote
}.

(** The [useState] cells of the component. *)
Record WizardState : Type := {
  step : Z;
  studentData : StudentData;
  error : string;
  isSubmitting : bool
}.

Definition setStep (n : Z) (s : WizardState) : WizardState :=
  {| step := n; studentData := studentData s;
     error := error s; isSubmitting := isSubmitting s |}.

Definition setStudentData (d : StudentData) (s : WizardState) : WizardState :=
  {| step := step s; studentData := d;
     error := error s; isSubmitting := isSubmitting s |}.

Definition setError (msg : string) (s : WizardState) : WizardState :=
  {| step := step s; studentData := studentData s;
     error := msg; isSubmitting := isSubmitting s |}.

Definition setIsSubmitting (b : bool) (s : WizardState) : WizardState :=
  {| step := step s; studentData := studentData s;
     error := error s; isSubmitting := b |}.

Definition emptyStudentData : StudentData :=
  {| name := ""; email := ""; role := RoleStudent;
     parentName := ""; parentEmail := "";
     cgpa := ""; attendance := ""; feeStatus := FeeUnset; backlogs := "" |}.

(** The state of a freshly mounted component. *)
Definition initialState : WizardState :=
  {| step := 1; studentData := emptyStudentData;
     error := ""; isSubmitting := false |}.

(** *** [handleNext] *)

Definition handleNext (s0 : WizardState) : WizardState :=
  let d := studentData s0 in
  let s := setError "" s0 in
  if (step s0 =? 1)%Z then
    if negb (truthy (name d)) || negb (truthy (email d)) then
      setError "Please provide student name and email" s
    else if role_eqb (role d) RoleParent
            && (negb (truthy (parentName d)) || negb (truthy (parentEmail d)))
    then setError "Please provide parent information" s
    else setStep 2 s
  else if (step s0 =? 2)%Z then
    let cgpa_ := parseFloat (cgpa d) in
    let attendance_ := parseInt (attendance d) in
    let backlogs_ := parseInt (backlogs d) in
    if negb (truthy (cgpa d)) || negb (truthy (attendance d))
       || negb (fee_truthy (feeStatus d)) || negb (truthy (backlogs d))
    then setError "Please fill in all academic fields" s
    else if lt cgpa_ (of_Z 0) || gt cgpa_ (of_Z 10) then
      setError "CGPA must be between 0 and 10" s
    else if lt attendance_ (of_Z 0) || gt attendance_ (of_Z 100) then
      setError "Attendance must be between 0 and 100%" s
    else if lt backlogs_ (of_Z 0) then
      setError "Backlogs cannot be negative" s
    else setStep 3 s
  else s.

(** *** The "Previous" buttons

    Step 2 renders [<Button onClick={() => setStep(1)}>], step 3 renders
    [<Button onClick={() => setStep(2)} disabled={isSubmitting}>]; step 1
    has no such button.  A disabled button does not fire [onClick]. *)
Definition clickPrevious (s : WizardState) : WizardState :=
  if (step s =? 2)%Z then setStep 1 s
  else if (step s =? 3)%Z then
    if isSubmitting s then s else setStep 2 s
  else s.

(** *** Asynchronous handlers *)

Definition JSError : Type := string.

(** How a promise settles. *)
Inductive Outcome (A : Type) : Type :=
| Fulfilled (a : A)
| Rejected (e : JSError).
Arguments Rejected {A} e.

(** What a handler of this component does to the world around it, with the
    type of the answer.  Setting a state cell and calling [onStudentAdded]
    (a state update of the embedding page) return; the two backend calls
    answer with a promise that settles either way. *)
Inductive Eff : Type -> Type :=
| SetError (msg : string) : Eff unit
| SetIsSubmitting (b : bool) : Eff unit
| ApiAddStudent (p : AddStudentRequest) : Eff (Outcome Created)
| ApiPredictRisk (p : PredictRiskRequest) : Eff (Outcome RiskResponse)
| OnStudentAdded (r : StudentRecord) : Eff unit
| Today : Eff string.

(** A handler: it returns, throws, or performs an effect and goes on with
    the answer. *)
Inductive Handler (A : Type) : Type :=
| Ret (a : A)
| Throw (e : JSError)
| Vis (R : Type) (e : Eff R) (k : R -> Handler A).
Arguments Throw {A} e.
Arguments Vis {A R} e k.

Fixpoint bind {A B : Type} (h : Handler A) (f : A -> Handler B) : Handler B :=
  match h with
  | Ret a => f a
  | Throw e => Throw e
  | Vis e k => Vis e (fun r => bind (k r) f)
  end.

(** [try { h } catch (e) { handler e }] *)
Fixpoint try_catch {A : Type} (h : Handler A) (handler : JSError -> Handler A)
  : Handler A :=
  match h with
  | Ret a => Ret a
  | Throw e => handler e
  | Vis e k => Vis e (fun r => try_catch (k r) handler)
  end.

Definition perform {R : Type} (e : Eff R) : Handler R := Vis e (@Ret R).

(** [await p]: the value of a fulfilled promise; a rejection is thrown. *)
Definition await {R : Type} (e : Eff (Outcome R)) : Handler R :=
  Vis e (fun o => match o with
                  | Fulfilled r => Ret r
                  | Rejected err => Throw err
                  end).

Declare Scope handler_scope.
Delimit Scope handler_scope with handler.
Notation "x <- c1 ;; c2" := (bind c1 (fun x => c2))
  (at level 61, c1 at next level, right associativity) : handler_scope.
Notation "' pat <- c1 ;; c2" := (bind c1 (fun x => match x with pat => c2 end))
  (at level 61, pat pattern, c1 at next level, right associativity)
  : handler_scope.
Notation "c1 ;; c2" := (bind c1 (fun _ => c2))
  (at level 61, right associativity) : handler_scope.
Local Open Scope handler_scope.

(** *** [handleSubmit] *)

(** [fee_status] of the request: the nested conditional of the source. *)
Definition backendFeeStatus (f : FeeStatus) : string :=
  if fee_eqb f FeePending then "payment_pending"
  else if fee_eqb f FeeOverdue then "payment_overdue"
  else "paid".

(** [Number(user?.id) || 0] *)
Definition mentorId (user : option User) : number :=
  or_number (Number (match user with
                     | Some u => user_id u
                     | None => VUndefined
                     end))
            (of_Z 0).

(** The object literal passed to [apiAddStudent]. *)
Definition addStudentRequest (d : StudentData) (user : option User)
  : AddStudentRequest :=
  {| req_full_name := name d;
     req_email := email d;
     req_account_type :=
       if role_eqb (role d) RoleParent then "student_and_parent" else "student";
     req_parent_name :=
       if role_eqb (role d) RoleParent then Some (parentName d) else None;
     req_parent_email :=
       if role_eqb (role d) RoleParent then Some (parentEmail d) else None;
     req_current_cgpa := parseFloat (cgpa d);
     req_attendance_percentage := parseFloat (attendance d);
     req_fee_status := backendFeeStatus (feeStatus d);
     req_backlogs := parseInt (backlogs d);
     req_mentor_id := mentorId user |}.

(** The object literal passed to [apiPredictRisk]. *)
Definition predictRiskRequest (created : Created) : PredictRiskRequest :=
  {| risk_current_cgpa := created_current_cgpa created;
     risk_attendance_percentage := created_attendance_percentage created;
     risk_fee_status := created_fee_status created;
     risk_backlogs := created_backlogs created |}.

(** [String(created.id)] *)
Definition String_of_id (n : N) : string :=
  NilEmpty.string_of_uint (N.to_uint n).

Definition newStudentRecord (d : StudentData) (user : option User)
    (created : Created) (risk : string) (score : Z) (today : string)
  : StudentRecord :=
  {| rec_id := String_of_id (created_id created);
     rec_name := created_full_name created;
     rec_email := created_email created;
     rec_cgpa := created_current_cgpa created;
     rec_attendance := created_attendance_percentage created;
     rec_feeStatus := feeStatus d;
     rec_backlogs := created_backlogs created;
     dropoutRisk := risk;
     riskScore := score;
     counselingNotes :=
       [ {| note_id := "note1";
            note_date := today;
            mentorName := or_string (match user with
                                     | Some u => user_name u
                                     | None => ""
                                     end) "Mentor";
            note := "Student profile created by mentor. Initial academic assessment completed.";
            note_type := "general";
            isPrivate := false |} ] |}.

(** [handleSubmit], with [studentData] and [user] as its closure holds
    them.  [e.preventDefault()] has no effect on the component and is left
    out; [risk] and [score] keep their initial values when the inner [try]
    block throws. *)
Definition handleSubmit (studentData : StudentData) (user : option User)
  : Handler unit :=
  perform (SetError "") ;;
  perform (SetIsSubmitting true) ;;
  try_catch
    (created <- await (ApiAddStudent (addStudentRequest studentData user)) ;;
     let risk0 := "low" in
     let score0 := 0%Z in
     '(risk, score) <-
        try_catch
          (r <- await (ApiPredictRisk (predictRiskRequest created)) ;;
           let risk := toLowerCase (risk_level r) in
           let score := if risk =? "high" then 80%Z
                        else if risk =? "medium" then 50%Z else 20%Z in
           Ret (risk, score))
          (fun _ => Ret (risk0, score0)) ;;
     today <- perform Today ;;
     perform (OnStudentAdded
                (newStudentRecord studentData user created risk score today)))
    (fun err =>
       perform (SetError "An error occurred while creating the student profile") ;;
       perform (SetIsSubmitting false)).

(** The request as the specification words it ("trimmed strings,
    lower-cased email, numeric coercion of CGPA/attendance/backlogs,
    fee-status value mapped to backend vocabulary"); it is compared with
    [addStudentRequest] below. *)
Definition normalizedRequest_spec (d : StudentData) (user : option User)
  : AddStudentRequest :=
  {| req_full_name := trim (name d);
     req_email := toLowerCase (trim (email d));
     req_account_type :=
       if role_eqb (role d) RoleParent then "student_and_parent" else "student";
     req_parent_name :=
       if role_eqb (role d) RoleParent then Some (trim (parentName d)) else None;
     req_parent_email :=
       if role_eqb (role d) RoleParent then Some (trim (parentEmail d)) else None;
     req_current_cgpa := parseFloat (cgpa d);
     req_attendance_percentage := parseFloat (attendance d);
     req_fee_status :=
       match feeStatus d with
       | FeePending => "payment_pending"
       | FeeOverdue => "payment_overdue"
       | _ => "paid"
       end;
     req_backlogs := parseInt (backlogs d);
     req_mentor_id := mentorId user |}.

(** *** Running a handler against a backend *)

(** What leaves the component. *)
Inductive Event : Type :=
| EvAddStudent (p : AddStudentRequest)
| EvPredictRisk (p : PredictRiskRequest)
| EvStudentAdded (r : StudentRecord).

(** The surroundings of one submission: how the two endpoints settle, and
    the date [new Date().toISOString().split('T')[0]] evaluates to. *)
Record Backend : Type := {
  addStudent : AddStudentRequest -> Outcome Created;
  predictRisk : PredictRiskRequest -> Outcome RiskResponse;
  today : string
}.

Record Run (A : Type) : Type := {
  result : Outcome A;
  final : WizardState;
  trace : list Event
}.

(** The answer to one effect, the state after it and what it emits. *)
Definition respond {R : Type} (b : Backend) (e : Eff R) (s : WizardState)
  : R * WizardState * list Event :=
  match e in Eff R return R * WizardState * list Event with
  | SetError msg => (tt, setError msg s, [])
  | SetIsSubmitting v => (tt, setIsSubmitting v s, [])
  | ApiAddStudent p => (addStudent b p, s, [EvAddStudent p])
  | ApiPredictRisk p => (predictRisk b p, s, [EvPredictRisk p])
  | OnStudentAdded r => (tt, s, [EvStudentAdded r])
  | Today => (today b, s, [])
  end.

(** A handler run to its end, every [await] answered by the backend. *)
Fixpoint run {A : Type} (b : Backend) (h : Handler A) (s : WizardState)
  : Run A :=
  match h with
  | Ret a => {| result := Fulfilled a; final := s; trace := [] |}
  | Throw e => {| result := Rejected e; final := s; trace := [] |}
  | Vis e k =>
      let '(r, s', evs) := respond b e s in
      let rest := run b (k r) s' in
      {| result := result rest; final := final rest;
         trace := evs ++ trace rest |}
  end.

(** One submission: the click on "Create Student Profile" in state [s]. *)
Definition submit (b : Backend) (user : option User) (s : WizardState)
  : Run unit :=
  run b (handleSubmit (studentData s) user) s.

(** *** The mounted component and its event loop *)

(** A handler suspended at an [await], with the request in flight. *)
Inductive Pending : Type :=
| AwaitAddStudent (p : AddStudentRequest)
    (k : Outcome Created -> Handler unit)
| AwaitPredictRisk (p : PredictRiskRequest)
    (k : Outcome RiskResponse -> Handler unit).

Record Component : Type := {
  ui : WizardState;
  pending : option Pending
}.

Definition mount : Component := {| ui := initialState; pending := None |}.

(** An effect is either answered at once or suspends the handler. *)
Inductive Reaction (R : Type) : Type :=
| Answered (r : R) (s : WizardState) (evs : list Event)
| Suspended (mk : (R -> Handler unit) -> Pending) (ev : Event).

Definition dispatch {R : Type} (date : string) (e : Eff R) (s : WizardState)
  : Reaction R :=
  match e in Eff R return Reaction R with
  | SetError msg => Answered tt (setError msg s) []
  | SetIsSubmitting v => Answered tt (setIsSubmitting v s) []
  | ApiAddStudent p => Suspended (AwaitAddStudent p) (EvAddStudent p)
  | ApiPredictRisk p => Suspended (AwaitPredictRisk p) (EvPredictRisk p)
  | OnStudentAdded r => Answered tt s [EvStudentAdded r]
  | Today => Answered date s []
  end.

(** A handler run up to its next [await] (or to its end). *)
Fixpoint drive (date : string) (h : Handler unit) (s : WizardState)
  : Component * list Event :=
  match h with
  | Ret _ | Throw _ => ({| ui := s; pending := None |}, [])
  | Vis e k =>
      match dispatch date e s with
      | Answered r s' evs =>
          let '(c, evs') := drive date (k r) s' in (c, evs ++ evs')
      | Suspended mk ev => ({| ui := s; pending := Some (mk k) |}, [ev])
      end
  end.

(** What is left of a suspended handler once the backend has answered. *)
Definition resume (b : Backend) (c : Component) : Run unit :=
  match pending c with
  | None => {| result := Fulfilled tt; final := ui c; trace := [] |}
  | Some (AwaitAddStudent p k) => run b (k (addStudent b p)) (ui c)
  | Some (AwaitPredictRisk p k) => run b (k (predictRisk b p)) (ui c)
  end.

(** The inputs of the form. *)
Inductive Field : Type :=
| FName (v : string)
| FEmail (v : string)
| FRole (v : Role)
| FParentName (v : string)
| FParentEmail (v : string)
| FCgpa (v : string)
| FAttendance (v : string)
| FFeeStatus (v : FeeStatus)
| FBacklogs (v : string).

(** [{ ...studentData, field: v }] *)
Definition withField (f : Field) (d : StudentData) : StudentData :=
  match f with
  | FName v =>
      {| name := v; email := email d; role := role d;
         parentName := parentName d; parentEmail := parentEmail d;
         cgpa := cgpa d; attendance := attendance d;
         feeStatus := feeStatus d; backlogs := backlogs d |}
  | FEmail v =>
      {| name := name d; email := v; role := role d;
         parentName := parentName d; parentEmail := parentEmail d;
         cgpa := cgpa d; attendance := attendance d;
         feeStatus := feeStatus d; backlogs := backlogs d |}
  | FRole v =>
      {| name := name d; email := email d; role := v;
         parentName := parentName d; parentEmail := parentEmail d;
         cgpa := cgpa d; attendance := attendance d;
         feeStatus := feeStatus d; backlogs := backlogs d |}
  | FParentName v =>
      {| name := name d; email := email d; role := role d;
         parentName := v; parentEmail := parentEmail d;
         cgpa := cgpa d; attendance := attendance d;
         feeStatus := feeStatus d; backlogs := backlogs d |}
  | FParentEmail v =>
      {| name := name d; email := email d; role := role d;
         parentName := parentName d; parentEmail := v;
         cgpa := cgpa d; attendance := attendance d;
         feeStatus := feeStatus d; backlogs := backlogs d |}
  | FCgpa v =>
      {| name := name d; email := email d; role := role d;
         parentName := parentName d; parentEmail := parentEmail d;
         cgpa := v; attendance := attendance d;
         feeStatus := feeStatus d; backlogs := backlogs d |}
  | FAttendance v =>
      {| name := name d; email := email d; role := role d;
         parentName := parentName d; parentEmail := parentEmail d;
         cgpa := cgpa d; attendance := v;
         feeStatus := feeStatus d; backlogs := backlogs d |}
  | FFeeStatus v =>
      {| name := name d; email := email d; role := role d;
         parentName := parentName d; parentEmail := parentEmail d;
         cgpa := cgpa d; attendance := attendance d;
         feeStatus := v; backlogs := backlogs d |}
  | FBacklogs v =>
      {| name := name d; email := email d; role := role d;
         parentName := parentName d; parentEmail := parentEmail d;
         cgpa := cgpa d; attendance := attendance d;
         feeStatus := feeStatus d; backlogs := v |}
  end.

(** Which input is on screen: step 1 shows name, email and the account
    select, and the parent inputs when the role is [parent]; step 2 shows
    the academic inputs, the fee select offering the three statuses. *)
Definition rendered (s : WizardState) (f : Field) : bool :=
  match f with
  | FName _ | FEmail _ | FRole _ => (step s =? 1)%Z
  | FParentName _ | FParentEmail _ =>
      (step s =? 1)%Z && role_eqb (role (studentData s)) RoleParent
  | FCgpa _ | FAttendance _ | FBacklogs _ => (step s =? 2)%Z
  | FFeeStatus v => (step s =? 2)%Z && fee_truthy v
  end.

(** What can happen to the mounted component. *)
Inductive UIEvent : Type :=
| Change (f : Field)
| ClickNext
| ClickPrevious
| ClickSubmit
| AddStudentSettled (o : Outcome Created)
| PredictRiskSettled (o : Outcome RiskResponse).

(** One turn of the event loop.  "Next" is rendered in steps 1 and 2,
    "Create Student Profile" in step 3 and disabled while submitting; an
    event for a control that is not on screen, or a settlement nobody
    waits for, changes nothing. *)
Definition react (user : option User) (date : string)
    (c : Component) (ev : UIEvent) : Component * list Event :=
  let s := ui c in
  match ev with
  | Change f =>
      if rendered s f
      then ({| ui := setStudentData (withField f (studentData s)) s;
               pending := pending c |}, [])
      else (c, [])
  | ClickNext =>
      if (step s =? 1)%Z || (step s =? 2)%Z
      then ({| ui := handleNext s; pending := pending c |}, [])
      else (c, [])
  | ClickPrevious =>
      ({| ui := clickPrevious s; pending := pending c |}, [])
  | ClickSubmit =>
      if (step s =? 3)%Z && negb (isSubmitting s)
      then drive date (handleSubmit (studentData s) user) s
      else (c, [])
  | AddStudentSettled o =>
      match pending c with
      | Some (AwaitAddStudent _ k) => drive date (k o) s
      | _ => (c, [])
      end
  | PredictRiskSettled o =>
      match pending c with
      | Some (AwaitPredictRisk _ k) => drive date (k o) s
      | _ => (c, [])
      end
  end.

(** A sequence of turns, with everything emitted on the way. *)
Fixpoint reacts (user : option User) (date : string)
    (c : Component) (evs : list UIEvent) : Component * list Event :=
  match evs with
  | [] => (c, [])
  | ev :: rest =>
      let '(c1, out1) := react user date c ev in
      let '(c2, out2) := reacts user date c1 rest in
      (c2, out1 ++ out2)
  end.

(** The states the component can be in after it was mounted, whoever is
    signed in and whatever the date at each turn. *)
Inductive reachable : Component -> Prop :=
| reach_mount : reachable mount
| reach_react user date c ev :
    reachable c -> reachable (fst (react user date c ev)).

End Wizard.

(* ================================================================== *)
(** ** Sample inputs *)
(* ================================================================== *)

Module Samples.
Import JS Wizard.
Local Open Scope list_scope.

Definition mentor : option User :=
  Some {| user_id := VString "42"; user_name := "Dr. Rao" |}.

Definition draft : StudentData :=
  {| name := "Asha Rao"; email := "asha.rao@student.edu";
     role := RoleStudent; parentName := ""; parentEmail := "";
     cgpa := "7.5"; attendance := "85";
     feeStatus := FeePending; backlogs := "1" |}.

(** The same draft as typed with stray blanks and capitals. *)
Definition draft_as_typed : StudentData :=
  withField (FName " Asha Rao ")
    (withField (FEmail "Asha.Rao@Student.EDU") draft).

Definition at_step (n : Z) (d : StudentData) : WizardState :=
  {| step := n; studentData := d; error := ""; isSubmitting := false |}.

(** A backend that stores what it is sent. *)
Definition stored (p : AddStudentRequest) : Created :=
  {| created_id := 17;
     created_full_name := req_full_name p;
     created_email := req_email p;
     created_current_cgpa := req_current_cgpa p;
     created_attendance_percentage := req_attendance_percentage p;
     created_fee_status := req_fee_status p;
     created_backlogs := req_backlogs p |}.

Definition backend_up (level : string) : Backend :=
  {| addStudent := fun p => Fulfilled (stored p);
     predictRisk := fun _ => Fulfilled {| risk_level := level |};
     today := "2025-09-01" |}.

Definition backend_without_model : Backend :=
  {| addStudent := fun p => Fulfilled (stored p);
     predictRisk := fun _ => Rejected "503 Service Unavailable";
     today := "2025-09-01" |}.

Definition backend_down : Backend :=
  {| addStudent := fun _ => Rejected "Failed to fetch";
     predictRisk := fun _ => Rejected "Failed to fetch";
     today := "2025-09-01" |}.

(** Filling in the form and walking to the review step. *)
Definition fill_in : list UIEvent :=
  [ Change (FName "Asha Rao"); Change (FEmail "asha.rao@student.edu");
    ClickNext;
    Change (FCgpa "7.5"); Change (FAttendance "85");
    Change (FFeeStatus FeePending); Change (FBacklogs "1");
    ClickNext ].

(** The component on the review step, and with a submission in flight. *)
Definition reviewing : Component :=
  fst (reacts mentor "2025-09-01" mount fill_in).

Definition submitting : Component :=
  fst (reacts mentor "2025-09-01" mount (fill_in ++ [ClickSubmit])).

(** Drafts the range checks of step 2 are tried on. *)
Definition attendance_fraction_over : StudentData :=
  withField (FAttendance "100.5") draft.

Definition attendance_fraction_under : StudentData :=
  withField (FAttendance "-0.5") draft.

Definition backlogs_no_integer_part : StudentData :=
  withField (FBacklogs "-.5") draft.

Definition cgpa_not_numeric : StudentData :=
  withField (FCgpa "abc") draft.

End Samples.

(* ================================================================== *)
(** ** Vocabulary of the statements *)
(* ================================================================== *)

Module Statements.
Import JS Wizard.

Definition creationFailed : string :=
  "An error occurred while creating the student profile".

(** Tier and score after the inner [try] block. *)
Definition assessed (o : Outcome RiskResponse) : string * Z :=
  match o with
  | Fulfilled r =>
      let risk := toLowerCase (risk_level r) in
      (risk, if (risk =? "high")%string then 80%Z
             else if (risk =? "medium")%string then 50%Z else 20%Z)
  | Rejected _ => ("low", 0%Z)
  end.

(** The step index names one of the three screens. *)
Definition validStep (s : WizardState) : Prop :=
  step s = 1%Z \/ step s = 2%Z \/ step s = 3%Z.

(** The checks of step 2, as [handleNext] evaluates them. *)
Definition step2_rejected (d : StudentData) : bool :=
  negb (truthy (cgpa d)) || negb (truthy (attendance d))
  || negb (fee_truthy (feeStatus d)) || negb (truthy (backlogs d))
  || lt (parseFloat (cgpa d)) (of_Z 0) || gt (parseFloat (cgpa d)) (of_Z 10)
  || lt (parseInt (attendance d)) (of_Z 0)
  || gt (parseInt (attendance d)) (of_Z 100)
  || lt (parseInt (backlogs d)) (of_Z 0).

(** A handler suspended at the predict call: once answered it runs to
    its end and calls neither endpoint again. *)
Definition settlesQuietly (k : Outcome RiskResponse -> Handler unit) : Prop :=
  forall (date : string) (o : Outcome RiskResponse) (s : WizardState),
    pending (fst (drive date (k o) s)) = None
    /\ step (ui (fst (drive date (k o) s))) = step s
    /\ forall ev, In ev (snd (drive date (k o) s)) ->
                  exists r, ev = EvStudentAdded r.

(** A handler suspended at the create call: answered with a record it
    calls the predict operation on that record and waits; answered with a
    failure it runs to its end and emits nothing. *)
Definition afterCreate (k : Outcome Created -> Handler unit) : Prop :=
  forall (date : string) (o : Outcome Created) (s : WizardState),
    match o with
    | Fulfilled created =>
        exists k',
          drive date (k o) s
          = ({| ui := s;
                pending := Some (AwaitPredictRisk
                                   (predictRiskRequest created) k') |},
             [EvPredictRisk (predictRiskRequest created)])
          /\ settlesQuietly k'
    | Rejected _ =>
        pending (fst (drive date (k o) s)) = None
        /\ step (ui (fst (drive date (k o) s))) = step s
        /\ snd (drive date (k o) s) = []
    end.

(** While a request is pending the component shows step 3 with the
    submitting flag on, and the suspended handler is one of the two
    above. *)
Definition inFlight (c : Component) : Prop :=
  match pending c with
  | None => True
  | Some (AwaitAddStudent _ k) =>
      step (ui c) = 3%Z /\ isSubmitting (ui c) = true /\ afterCreate k
  | Some (AwaitPredictRisk _ k) =>
      step (ui c) = 3%Z /\ isSubmitting (ui c) = true /\ settlesQuietly k
  end.

End Statements.

(* ================================================================== *)
(** ** What the wizard shows, and what its states have in common *)
(* ================================================================== *)

Module Screen.
Import JS Wizard Statements.

(** The alert [{error && <Alert>...}] sits inside the [step === 3] block of
    the JSX and nowhere else. *)
Definition errorShown (s : WizardState) : bool :=
  (step s =? 3)%Z && truthy (error s).

(** The checks of step 1 all pass. *)
Definition step1_ok (d : StudentData) : Prop :=
  name d <> ""%string /\ email d <> ""%string
  /\ (role d = RoleParent ->
      parentName d <> ""%string /\ parentEmail d <> ""%string).

(** The handler is waiting for the predict call: whatever the answer, it
    calls [onStudentAdded] once and ends, the state cells as they were. *)
Definition predictCont (k : Outcome RiskResponse -> Handler unit) : Prop :=
  forall (date : string) (o : Outcome RiskResponse) (s : WizardState),
    exists r,
      drive date (k o) s
      = ({| ui := s; pending := None |}, [EvStudentAdded r]).

(** The handler is waiting for the create call. *)
Definition createCont (k : Outcome Created -> Handler unit) : Prop :=
  forall (date : string) (o : Outcome Created) (s : WizardState),
    match o with
    | Fulfilled created =>
        exists k',
          drive date (k o) s
          = ({| ui := s;
                pending := Some (AwaitPredictRisk
                                   (predictRiskRequest created) k') |},
             [EvPredictRisk (predictRiskRequest created)])
          /\ predictCont k'
    | Rejected _ =>
        drive date (k o) s
        = ({| ui := setIsSubmitting false (setError creationFailed s);
              pending := None |}, [])
    end.

(** What every state of the mounted component satisfies. *)
Definition wellFormed (c : Component) : Prop :=
  validStep (ui c)
  /\ ((2 <= step (ui c))%Z -> step1_ok (studentData (ui c)))
  /\ (step (ui c) = 3%Z -> step2_rejected (studentData (ui c)) = false)
  /\ (isSubmitting (ui c) = true -> step (ui c) = 3%Z)
  /\ (step (ui c) = 3%Z ->
      error (ui c) = ""%string \/ error (ui c) = creationFailed)
  /\ match pending c with
     | None => True
     | Some (AwaitAddStudent _ k) =>
         isSubmitting (ui c) = true /\ createCont k
     | Some (AwaitPredictRisk _ k) =>
         isSubmitting (ui c) = true /\ predictCont k
     end.

(** A settlement, as opposed to something the user does. *)
Definition isSettlement (ev : UIEvent) : bool :=
  match ev with
  | AddStudentSettled _ | PredictRiskSettled _ => true
  | _ => false
  end.

(** The handler is suspended at the predict call. *)
Definition awaitsPredict (c : Component) : bool :=
  match pending c with
  | Some (AwaitPredictRisk _ _) => true
  | _ => false
  end.

(** [user?.name || 'Mentor'] *)
Definition mentorNameOf (user : option User) : string :=
  match user with
  | Some u => if truthy (user_name u) then user_name u else "Mentor"
  | None => "Mentor"
  end.

End Screen.

Module MoreSamples.
Import JS Wizard Samples.
Local Open Scope list_scope.

(** The component after a create call that failed, and after a submission
    that went through. *)
Definition afterFailure : Component :=
  fst (reacts mentor "2025-09-01" mount
         (fill_in ++ [ClickSubmit; AddStudentSettled (Rejected "Failed to fetch")])).

Definition afterSuccess : Component :=
  fst (reacts mentor "2025-09-01" mount
         (fill_in ++ [ClickSubmit;
                      AddStudentSettled
                        (Fulfilled (stored (addStudentRequest draft mentor)));
                      PredictRiskSettled (Fulfilled {| risk_level := "Medium" |})])).

(** The component with the record created and the predict call in
    flight. *)
Definition awaitingPredict : Component :=
  fst (reacts mentor "2025-09-01" mount
         (fill_in ++ [ClickSubmit;
                      AddStudentSettled
                        (Fulfilled (stored (addStudentRequest draft mentor)))])).

(** A backend that tidies up what it stores. *)
Definition backend_tidy : Backend :=
  {| addStudent := fun p =>
       Fulfilled
         {| created_id := 204;
            created_full_name := trim (req_full_name p);
            created_email := toLowerCase (trim (req_email p));
            created_current_cgpa := req_current_cgpa p;
            created_attendance_percentage := req_attendance_percentage p;
            created_fee_status := req_fee_status p;
            created_backlogs := req_backlogs p |};
     predictRisk := fun _ => Rejected "timeout";
     today := "2025-09-01" |}.

(** A draft for a student and a parent, the parent's email missing. *)
Definition draft_parent_incomplete : StudentData :=
  withField (FRole RoleParent) (withField (FParentName "Meera Rao") draft).

End MoreSamples.

(* ================================================================== *)
(** ** Regular expressions, as far as the registration form uses them *)
(* ================================================================== *)

Module Regex.

Inductive regex : Type :=
| Never
| Empty
| Class (p : ascii -> bool)
| Seq (r1 r2 : regex)
| Alt (r1 r2 : regex)
| Star (r : regex).

(** [r+] and a single character. *)
Definition Plus (r : regex) : regex := Seq r (Star r).
Definition Chr (c : ascii) : regex := Class (fun x => (x =? c)%char).


Fixpoint nullable (r : regex) : bool :=
  match r with
  | Never => false
  | Empty => true
  | Class _ => false
  | Seq r1 r2 => nullable r1 && nullable r2
  | Alt r1 r2 => nullable r1 || nullable r2
  | Star _ => true
  end.

(** What is left of [r] after the character [c]. *)
Fixpoint deriv (c : ascii) (r : regex) : regex :=
  match r with
  | Never => Never
  | Empty => Never
  | Class p => if p c then Empty else Never
  | Seq r1 r2 =>
      if nullable r1
      then Alt (Seq (deriv c r1) r2) (deriv c r2)
      else Seq (deriv c r1) r2
  | Alt r1 r2 => Alt (deriv c r1) (deriv c r2)
  | Star r1 => Seq (deriv c r1) (Star r1)
  end.

(** [/^r$/.test(s)] *)
Fixpoint test (r : regex) (s : string) : bool :=
  match s with
  | EmptyString => nullable r
  | String c rest => test (deriv c r) rest
  end.



End Regex.

(* ================================================================== *)
(** ** The mentor registration form ([MentorRegister]) *)
(* ================================================================== *)

Module Register.
Import JS Wizard Regex.
Local Open Scope list_scope.

(** [[^\s@]] *)
Definition notSpaceNorAt (c : ascii) : bool :=
  negb (is_space c || (c =? "@")%char).

(** [/^[^\s@]+@[^\s@]+\.[^\s@]+$/] *)
Definition emailPattern : regex :=
  Seq (Plus (Class notSpaceNorAt))
    (Seq (Chr "@")
       (Seq (Plus (Class notSpaceNorAt))
          (Seq (Chr ".") (Plus (Class notSpaceNorAt))))).

Definition isValidEmail (val : string) : bool := test emailPattern val.

(** The [useState] cells of the form; [error] and [success] are a string
    or [null]. *)
Record FormState : Type := {
  fullName : string;
  email : string;
  password : string;
  expertise : string;
  loading : bool;
  error : option string;
  success : option string
}.

Definition initialForm : FormState :=
  {| fullName := ""; email := ""; password := ""; expertise := "";
     loading := false; error := None; success := None |}.

Record RegisterRequest : Type := {
  reg_full_name : string;
  reg_email : string;
  reg_password : string;
  reg_expertise : string
}.

(** [const payload = { ... }] *)
Definition payloadOf (s : FormState) : RegisterRequest :=
  {| reg_full_name := trim (fullName s);
     reg_email := toLowerCase (trim (email s));
     reg_password := trim (password s);
     reg_expertise := trim (expertise s) |}.

(** What leaves the form: the call of [apiRegisterMentor], and the timer
    set with [setTimeout]. *)
Inductive FormEvent : Type :=
| EvRegister (p : RegisterRequest)
| EvTimer (delay : Z).

Definition withError (e : option string) (s : FormState) : FormState :=
  {| fullName := fullName s; email := email s; password := password s;
     expertise := expertise s; loading := loading s;
     error := e; success := success s |}.

Definition withSuccess (m : option string) (s : FormState) : FormState :=
  {| fullName := fullName s; email := email s; password := password s;
     expertise := expertise s; loading := loading s;
     error := error s; success := m |}.

Definition withLoading (b : bool) (s : FormState) : FormState :=
  {| fullName := fullName s; email := email s; password := password s;
     expertise := expertise s; loading := b;
     error := error s; success := success s |}.

(** [setFullName(''); setEmail(''); setPassword(''); setExpertise('')] *)
Definition cleared (s : FormState) : FormState :=
  {| fullName := ""; email := ""; password := ""; expertise := "";
     loading := loading s; error := error s; success := success s |}.

(** [handleSubmit] of the form, the call answered by [api].  A rejection
    is given by the message of the thrown value, empty when it has none
    ([err?.message || ...] takes the default in both cases). *)
Definition handleSubmit (api : RegisterRequest -> Outcome unit)
    (s0 : FormState) : FormState * list FormEvent :=
  let s := withSuccess None (withError None s0) in
  let payload := payloadOf s0 in
  if negb (truthy (reg_full_name payload)) || negb (truthy (reg_email payload))
     || negb (truthy (reg_password payload))
     || negb (truthy (reg_expertise payload))
  then (withError (Some "All fields are required.") s, [])
  else if negb (isValidEmail (reg_email payload))
  then (withError (Some "Please enter a valid email address.") s, [])
  else if (Z.of_nat (String.length (reg_password payload)) <? 6)%Z
  then (withError (Some "Password must be at least 6 characters.") s, [])
  else
    let s := withLoading true s in
    match api payload with
    | Fulfilled _ =>
        let s := withSuccess
                   (Some "Registration successful. Redirecting to login…") s in
        let s := cleared s in
        (withLoading false s, [EvRegister payload; EvTimer 1200])
    | Rejected msg =>
        let s := withError
                   (Some (or_string msg "Something went wrong. Please try again."))
                   s in
        (withLoading false s, [EvRegister payload])
    end.




End Register.

Module RegisterSamples.
Import JS Wizard Register.

Definition form_as_typed : FormState :=
  {| fullName := "  Dr. A. B. Mentor ";
     email := " Mentor@Example.COM";
     password := "secret1 ";
     expertise := "AI/ML";
     loading := false; error := Some "All fields are required.";
     success := None |}.


Definition api_taken (p : RegisterRequest) : Outcome unit :=
  Rejected "Email already registered".
Definition api_silent (p : RegisterRequest) : Outcome unit := Rejected "".

End RegisterSamples.

(* ================================================================== *)
(** ** The validated input ([ValidatedInput]) *)
(* ================================================================== *)

Module ValidatedInput.
Local Open Scope list_scope.

(** What [validateField] returns. *)
Record Validity : Type := {
  isValid : bool;
  errors : list string
}.

(** The two [useState] cells. *)
Record InputState : Type := {
  errs : list string;
  touched : bool
}.

Definition initialInput : InputState := {| errs := []; touched := false |}.

(** What the component calls: [onValidation], and the [onChange] and
    [onBlur] of its properties. *)
Inductive Output : Type :=
| Validated (ok : bool) (es : list string)
| Changed (v : string)
| Blurred (v : string).

(** What happens to it: a change or a blur of the input, with the text in
    it, and the effect that runs when [props.value] is new. *)
Inductive InputEvent : Type :=
| OnChange (v : string)
| OnBlur (v : string)
| ValueEffect (v : option string).

Section WithRules.

(** [ValidationRule] and [validateField] come from [lib/validation], which
    is not among the sources; they are taken as they come. *)
Variable Rule : Type.
Variable validateField : string -> Rule -> Validity.

(** The properties the component reads; a handler that may be absent is
    given by whether it is there. *)
Record Props : Type := {
  validation : option Rule;
  onValidation : bool;
  onChange : bool;
  onBlur : bool
}.

Definition validateValue (props : Props) (value : string) : Validity :=
  match validation props with
  | None => {| isValid := true; errors := [] |}
  | Some rule => validateField value rule
  end.

(** [f?.(args)] *)
Definition optionally (given : bool) (o : Output) : list Output :=
  if given then [o] else [].

Definition handleChange (props : Props) (v : string) (s : InputState)
  : InputState * list Output :=
  let result := validateValue props v in
  ({| errs := errors result; touched := touched s |},
   optionally (onValidation props) (Validated (isValid result) (errors result))
   ++ optionally (onChange props) (Changed v)).

Definition handleBlur (props : Props) (v : string) (s : InputState)
  : InputState * list Output :=
  let result := validateValue props v in
  ({| errs := errors result; touched := true |},
   optionally (onValidation props) (Validated (isValid result) (errors result))
   ++ optionally (onBlur props) (Blurred v)).

(** The body of [useEffect(..., [props.value])]. *)
Definition valueEffect (props : Props) (value : option string) (s : InputState)
  : InputState * list Output :=
  match value with
  | Some v =>
      let result := validateValue props v in
      ({| errs := errors result; touched := touched s |},
       optionally (onValidation props)
         (Validated (isValid result) (errors result)))
  | None => (s, [])
  end.

(** [touched && errors.length > 0]: the red border, the icon and the list
    of messages are drawn when it holds. *)
Definition hasErrors (s : InputState) : bool :=
  touched s && negb (Nat.eqb (List.length (errs s)) 0).

Definition inputReact (props : Props) (s : InputState) (ev : InputEvent)
  : InputState * list Output :=
  match ev with
  | OnChange v => handleChange props v s
  | OnBlur v => handleBlur props v s
  | ValueEffect v => valueEffect props v s
  end.

Fixpoint inputRuns (props : Props) (s : InputState) (evs : list InputEvent)
  : InputState * list Output :=
  match evs with
  | [] => (s, [])
  | ev :: rest =>
      let '(s1, out1) := inputReact props s ev in
      let '(s2, out2) := inputRuns props s1 rest in
      (s2, out1 ++ out2)
  end.

End WithRules.

Definition isBlur (ev : InputEvent) : bool :=
  match ev with
  | OnBlur _ => true
  | _ => false
  end.

(** A rule for the samples: the text must not be empty. *)
Definition requiredRule (v : string) (rule : unit) : Validity :=
  match v with
  | EmptyString => {| isValid := false; errors := ["This field is required"%string] |}
  | _ => {| isValid := true; errors := [] |}
  end.

Definition requiredProps : Props unit :=
  {| validation := Some tt; onValidation := true;
     onChange := true; onBlur := false |}.

End ValidatedInput.

(* ================================================================== *)
(** ** The views of the application ([AppContent]) *)
(* ================================================================== *)

Module App.
Local Open Scope list_scope.

(** [type View] *)
Inductive View : Type :=
| ViewLogin
| ViewStudentDashboard
| ViewMentorDashboard
| ViewMentorUpdate.

(** ['login' | 'mentor-register'] *)
Inductive AuthView : Type := AuthLogin | AuthMentorRegister.

Section WithStudents.

(** A student as the mentor dashboard hands it over; [selectedStudent] is
    such an object or [null]. *)
Variable Student : Type.

(** The [useState] cells of [AppContent]. *)
Record AppState : Type := {
  currentView : View;
  authView : AuthView;
  selectedStudent : option Student;
  studentsVersion : Z
}.


(** What [useAuth()] gives: [isLoading], and the user's role when somebody
    is signed in. *)
Record Auth : Type := {
  isLoading : bool;
  userRole : option string
}.

(** What is on screen. *)
Inductive Screen : Type :=
| ScreenLoading
| ScreenLogin
| ScreenMentorRegister
| ScreenStudentDashboard
| ScreenParentDashboard
| ScreenMentorUpdate (student : Student)
| ScreenMentorDashboard (refreshKey : Z).

(** The body of [AppContent]. *)
Definition render (auth : Auth) (st : AppState) : Screen :=
  if isLoading auth then ScreenLoading
  else
    match userRole auth with
    | None =>
        match authView st with
        | AuthLogin => ScreenLogin
        | AuthMentorRegister => ScreenMentorRegister
        end
    | Some r =>
        if (r =? "student")%string then ScreenStudentDashboard
        else if (r =? "parent")%string then ScreenParentDashboard
        else
          match currentView st, selectedStudent st with
          | ViewMentorUpdate, Some student => ScreenMentorUpdate student
          | _, _ => ScreenMentorDashboard (studentsVersion st)
          end
    end.

(** The callbacks handed to the screens: [onNavigateToRegister],
    [onBackToLogin], [onUpdateStudent], [onStudentUpdated], [onBack]. *)
Inductive AppEvent : Type :=
| NavigateToRegister
| BackToLogin
| UpdateStudent (student : option Student)
| StudentUpdated (updated : option Student)
| Back.

(** What each callback does to the state. *)
Definition appReact (st : AppState) (ev : AppEvent) : AppState :=
  match ev with
  | NavigateToRegister =>
      {| currentView := currentView st; authView := AuthMentorRegister;
         selectedStudent := selectedStudent st;
         studentsVersion := studentsVersion st |}
  | BackToLogin =>
      {| currentView := currentView st; authView := AuthLogin;
         selectedStudent := selectedStudent st;
         studentsVersion := studentsVersion st |}
  | UpdateStudent student =>
      {| currentView := ViewMentorUpdate; authView := authView st;
         selectedStudent := student;
         studentsVersion := studentsVersion st |}
  | StudentUpdated updated =>
      {| currentView := currentView st; authView := authView st;
         selectedStudent := updated;
         studentsVersion := studentsVersion st + 1 |}
  | Back =>
      {| currentView := ViewMentorDashboard; authView := authView st;
         selectedStudent := None;
         studentsVersion := studentsVersion st + 1 |}
  end.

Fixpoint appRuns (st : AppState) (evs : list AppEvent) : AppState :=
  match evs with
  | [] => st
  | ev :: rest => appRuns (appReact st ev) rest
  end.


End WithStudents.


End App.

(* ================================================================== *)
(** ** Properties *)
(* ================================================================== *)

Import JS Wizard Statements Samples.
Local Open Scope list_scope.
Local Open Scope Z_scope.

(** *** The numeric readers on a few literals *)

(** [parseFloat] rounds to the nearest binary64: 0.1 is
    [0x1.999999999999ap-4], and a literal above 10 by less than half a
    unit in the last place is 10. *)
Example parseFloat_rounds :
  parseFloat "0.1" = S754_finite false 7205759403792794 (-56)
  /\ parseFloat "7.5" = S754_finite false 8444249301319680 (-50)
  /\ parseFloat "10.0000000000000000001" = of_Z 10
  /\ parseFloat " -2.5e-1px" = parseFloat "-0.25"
  /\ parseFloat "1e400" = Infinity false
  /\ parseFloat "." = NaN.
Proof. repeat split; vm_compute; reflexivity. Qed.

(** [parseInt] reads the leading digits only. *)
Example parseInt_truncates :
  parseInt "100.5" = of_Z 100
  /\ parseInt "-0.5" = S754_zero true
  /\ parseInt "0x1f" = of_Z 31
  /\ parseInt "12px" = of_Z 12
  /\ parseInt "-.5" = NaN
  /\ parseInt "" = NaN.
Proof. repeat split; vm_compute; reflexivity. Qed.

(** [Number] wants the whole string to be a literal. *)
Example Number_of_strings :
  Number (VString " 42 ") = of_Z 42
  /\ Number (VString "") = of_Z 0
  /\ Number (VString "42px") = NaN
  /\ Number (VString "0b101") = of_Z 5
  /\ Number VUndefined = NaN.
Proof. repeat split; vm_compute; reflexivity. Qed.

(** No comparison holds of [NaN], and a negative zero is not below zero. *)
Lemma NaN_not_compared (n : number) :
  lt NaN n = false /\ gt NaN n = false
  /\ lt (S754_zero true) (of_Z 0) = false.
Proof. destruct n; repeat split. Qed.

(** *** The state cells a handler can reach *)

Section HandlerFrame.
Variable b : Backend.

(** Answering an effect never touches the step or the draft. *)
Lemma respond_frame (R : Type) (e : Eff R) (s : WizardState) :
  step (snd (fst (respond b e s))) = step s
  /\ studentData (snd (fst (respond b e s))) = studentData s.
Proof. destruct e; simpl; split; reflexivity. Qed.

Lemma run_frame (A : Type) (h : Handler A) :
  forall s, step (final (run b h s)) = step s
            /\ studentData (final (run b h s)) = studentData s.
Proof.
  induction h as [a | e | R e k IH]; intros s; simpl.
  - split; reflexivity.
  - split; reflexivity.
  - destruct (respond_frame e s) as [Hstep Hdata].
    destruct (respond b e s) as [[r s'] evs]; simpl in *.
    destruct (IH r s') as [IH1 IH2].
    rewrite IH1, IH2, Hstep, Hdata. split; reflexivity.
Qed.
End HandlerFrame.

Lemma drive_frame (date : string) (h : Handler unit) :
  forall s, step (ui (fst (drive date h s))) = step s
            /\ studentData (ui (fst (drive date h s))) = studentData s.
Proof.
  induction h as [a | e | R e k IH]; intros s; simpl.
  - split; reflexivity.
  - split; reflexivity.
  - destruct e; simpl;
      try (split; reflexivity);
      match goal with
      | |- context [drive date (k ?r) ?s1] =>
          destruct (IH r s1) as [IH1 IH2];
          destruct (drive date (k r) s1) as [c evs]; simpl in *;
          rewrite IH1, IH2; split; reflexivity
      end.
Qed.

(** *** The run against a backend and the event loop agree *)

Lemma drive_then_resume (b : Backend) (h : Handler unit) :
  forall s,
    final (run b h s) = final (resume b (fst (drive (today b) h s)))
    /\ trace (run b h s)
       = snd (drive (today b) h s)
         ++ trace (resume b (fst (drive (today b) h s))).
Proof.
  induction h as [a | e | R e k IH]; intros s.
  - split; reflexivity.
  - split; reflexivity.
  - destruct e; simpl;
      try (split; reflexivity);
      match goal with
      | |- context [drive (today b) (k ?r) ?s1] =>
          destruct (IH r s1) as [IH1 IH2];
          destruct (drive (today b) (k r) s1) as [c evs]; simpl in *;
          rewrite IH1, IH2; split; reflexivity
      end.
Qed.

(** *** One submission, case by case *)

Lemma submit_cases (b : Backend) (user : option User) (s : WizardState) :
  let d := studentData s in
  let req := addStudentRequest d user in
  submit b user s =
  match addStudent b req with
  | Rejected _ =>
      {| result := Fulfilled tt;
         final := setIsSubmitting false
                    (setError creationFailed
                       (setIsSubmitting true (setError "" s)));
         trace := [EvAddStudent req] |}
  | Fulfilled created =>
      let o := predictRisk b (predictRiskRequest created) in
      {| result := Fulfilled tt;
         final := setIsSubmitting true (setError "" s);
         trace := [EvAddStudent req;
                   EvPredictRisk (predictRiskRequest created);
                   EvStudentAdded
                     (newStudentRecord d user created
                        (fst (assessed o)) (snd (assessed o)) (today b))] |}
  end.
Proof.
  unfold submit, handleSubmit; simpl.
  destruct (addStudent b _) as [created | err]; simpl.
  - destruct (predictRisk b _) as [r | err]; reflexivity.
  - reflexivity.
Qed.

(** The event loop, answered by the backend, performs the same submission
    as [submit]. *)
Lemma submit_as_turns (b : Backend) (user : option User) (s : WizardState) :
  step s = 3 -> isSubmitting s = false ->
  let req := addStudentRequest (studentData s) user in
  reacts user (today b) {| ui := s; pending := None |}
    (ClickSubmit :: AddStudentSettled (addStudent b req) ::
       match addStudent b req with
       | Fulfilled created =>
           [PredictRiskSettled (predictRisk b (predictRiskRequest created))]
       | Rejected _ => []
       end)
  = ({| ui := final (submit b user s); pending := None |},
     trace (submit b user s)).
Proof.
  intros Hstep Hidle req. rewrite submit_cases. fold req.
  unfold reacts, react, handleSubmit; simpl.
  rewrite Hstep, Hidle; simpl. fold req.
  destruct (addStudent b req) as [created | err]; simpl.
  - destruct (predictRisk b (predictRiskRequest created)); reflexivity.
  - reflexivity.
Qed.

(** *** Steps of the wizard *)

Ltac split_ifs :=
  repeat match goal with
         | |- context [if ?c then _ else _] => destruct c eqn:?
         end.

Lemma handleNext_frame (s : WizardState) :
  studentData (handleNext s) = studentData s
  /\ isSubmitting (handleNext s) = isSubmitting s.
Proof. unfold handleNext. split_ifs; split; reflexivity. Qed.

Lemma handleNext_validStep (s : WizardState) :
  validStep s -> validStep (handleNext s).
Proof.
  unfold validStep, handleNext. intros Hs.
  split_ifs; simpl; auto.
Qed.

Lemma handleNext_last_step (s : WizardState) :
  step s = 3 -> handleNext s = setError "" s.
Proof. unfold handleNext. intros ->. reflexivity. Qed.

Ltac step2_case Hs :=
  cbn [orb step error setError setStep];
  try (split; [exact Hs | discriminate]).

(** Step 2: "Next" stays, with a message, exactly when one of the checks of
    the handler fires; otherwise it moves on to the review. *)
Lemma handleNext_step2 (s : WizardState) :
  step s = 2 ->
  if step2_rejected (studentData s)
  then step (handleNext s) = 2 /\ error (handleNext s) <> ""%string
  else handleNext s = setStep 3 (setError "" s).
Proof.
  unfold handleNext, step2_rejected. intros Hs. rewrite Hs.
  change (2 =? 1) with false. change (2 =? 2) with true. cbv zeta iota.
  destruct (negb (truthy (cgpa (studentData s)))
            || negb (truthy (attendance (studentData s)))
            || negb (fee_truthy (feeStatus (studentData s)))
            || negb (truthy (backlogs (studentData s)))); step2_case Hs.
  destruct (lt (parseFloat (cgpa (studentData s))) (of_Z 0)); step2_case Hs.
  destruct (gt (parseFloat (cgpa (studentData s))) (of_Z 10)); step2_case Hs.
  destruct (lt (parseInt (attendance (studentData s))) (of_Z 0)); step2_case Hs.
  destruct (gt (parseInt (attendance (studentData s))) (of_Z 100)); step2_case Hs.
  destruct (lt (parseInt (backlogs (studentData s))) (of_Z 0)); step2_case Hs.
  reflexivity.
Qed.

Lemma clickPrevious_validStep (s : WizardState) :
  validStep s -> validStep (clickPrevious s).
Proof.
  unfold validStep, clickPrevious. intros Hs.
  split_ifs; simpl; auto.
Qed.

Lemma react_validStep (user : option User) (date : string)
    (c : Component) (ev : UIEvent) :
  validStep (ui c) -> validStep (ui (fst (react user date c ev))).
Proof.
  intros Hc. unfold react.
  destruct ev as [f | | | | o | o]; cbv zeta.
  - destruct (rendered (ui c) f); exact Hc.
  - destruct ((step (ui c) =? 1) || (step (ui c) =? 2)).
    + apply handleNext_validStep, Hc.
    + exact Hc.
  - apply clickPrevious_validStep, Hc.
  - destruct ((step (ui c) =? 3) && negb (isSubmitting (ui c))).
    + unfold validStep.
      destruct (drive_frame date (handleSubmit (studentData (ui c)) user) (ui c))
        as [-> _]. exact Hc.
    + exact Hc.
  - destruct (pending c) as [[p k | p k] |]; try exact Hc.
    unfold validStep.
    destruct (drive_frame date (k o) (ui c)) as [-> _]. exact Hc.
  - destruct (pending c) as [[p k | p k] |]; try exact Hc.
    unfold validStep.
    destruct (drive_frame date (k o) (ui c)) as [-> _]. exact Hc.
Qed.

Lemma reachable_validStep (c : Component) :
  reachable c -> validStep (ui c).
Proof.
  induction 1 as [| user date c ev Hc IH].
  - left; reflexivity.
  - apply react_validStep, IH.
Qed.

Lemma reacts_fst (user : option User) (date : string)
    (c : Component) (ev : UIEvent) (evs : list UIEvent) :
  fst (reacts user date c (ev :: evs))
  = fst (reacts user date (fst (react user date c ev)) evs).
Proof.
  simpl. destruct (react user date c ev) as [c1 out1]; simpl.
  destruct (reacts user date c1 evs) as [c2 out2]; reflexivity.
Qed.

Lemma reacts_reachable (user : option User) (date : string)
    (evs : list UIEvent) :
  forall c, reachable c -> reachable (fst (reacts user date c evs)).
Proof.
  induction evs as [| ev evs IH]; intros c Hc.
  - exact Hc.
  - rewrite reacts_fst. apply IH. constructor. exact Hc.
Qed.

(** *** Requests in flight *)

(** The click on "Create Student Profile": the create call goes out and
    the handler waits for it. *)
Lemma drive_handleSubmit (user : option User) (date : string)
    (s : WizardState) :
  exists k,
    drive date (handleSubmit (studentData s) user) s
    = ({| ui := setIsSubmitting true (setError "" s);
          pending := Some (AwaitAddStudent
                             (addStudentRequest (studentData s) user) k) |},
       [EvAddStudent (addStudentRequest (studentData s) user)])
    /\ afterCreate k.
Proof.
  unfold handleSubmit; simpl. eexists. split; [reflexivity |].
  intros date' [created | err] s'; simpl.
  - eexists. split; [reflexivity |].
    intros date'' [resp | err] s''; simpl;
      (split; [reflexivity |]; split; [reflexivity |]);
      intros ev [Hev | []]; eexists; symmetry; exact Hev.
  - repeat split.
Qed.

Lemma react_inFlight (user : option User) (date : string)
    (c : Component) (ev : UIEvent) :
  inFlight c -> inFlight (fst (react user date c ev)).
Proof.
  destruct c as [s pend]. unfold inFlight, react; cbn [ui pending].
  intros Hc. destruct ev as [f | | | | o | o].
  - destruct (rendered s f); exact Hc.
  - destruct ((step s =? 1) || (step s =? 2)) eqn:Hnext; [| exact Hc].
    cbn [fst ui pending].
    destruct pend as [[p k | p k] |]; [| | exact I];
      destruct Hc as (H3 & _); rewrite H3 in Hnext; discriminate Hnext.
  - cbn [fst ui pending]. unfold clickPrevious.
    destruct pend as [[p k | p k] |]; [| | exact I];
      destruct Hc as (H3 & Hbusy & Hk); rewrite H3, Hbusy; simpl; auto.
  - destruct ((step s =? 3) && negb (isSubmitting s)) eqn:Hsubmit;
      [| exact Hc].
    apply andb_true_iff in Hsubmit. destruct Hsubmit as [H3 _].
    apply Z.eqb_eq in H3.
    destruct (drive_handleSubmit user date s) as (k & -> & Hk).
    cbn [fst ui pending]. repeat split; [exact H3 | exact Hk].
  - destruct pend as [[p k | p k] |]; try exact Hc.
    destruct Hc as (H3 & Hbusy & Hk).
    specialize (Hk date o s). destruct o as [created | err].
    + destruct Hk as (k' & -> & Hk'). cbn [fst ui pending]. auto.
    + destruct Hk as (Hnone & _ & _). rewrite Hnone. exact I.
  - destruct pend as [[p k | p k] |]; try exact Hc.
    destruct Hc as (H3 & Hbusy & Hk).
    destruct (Hk date o s) as (Hnone & _ & _). rewrite Hnone. exact I.
Qed.

Lemma reachable_inFlight (c : Component) : reachable c -> inFlight c.
Proof.
  induction 1 as [| user date c ev Hc IH].
  - exact I.
  - apply react_inFlight, IH.
Qed.

(** In a state the component can be in, a turn that calls the predict
    operation is the turn in which a pending create call settles with a
    record, and the call is made on that record. *)
Lemma predict_follows_create (user : option User) (date : string)
    (c : Component) (ev : UIEvent) (p : PredictRiskRequest) :
  reachable c ->
  In (EvPredictRisk p) (snd (react user date c ev)) ->
  exists created req k,
    ev = AddStudentSettled (Fulfilled created)
    /\ pending c = Some (AwaitAddStudent req k)
    /\ p = predictRiskRequest created.
Proof.
  intros Hreach. apply reachable_inFlight in Hreach.
  destruct c as [s pend]. unfold inFlight in Hreach.
  unfold react; cbn [ui pending] in *.
  destruct ev as [f | | | | o | o].
  - destruct (rendered s f); intros [].
  - destruct ((step s =? 1) || (step s =? 2)); intros [].
  - intros [].
  - destruct ((step s =? 3) && negb (isSubmitting s)); [| intros []].
    destruct (drive_handleSubmit user date s) as (k & -> & _).
    intros [Hp | []]. discriminate Hp.
  - destruct pend as [[req k | req k] |]; try (intros []).
    destruct Hreach as (_ & _ & Hk). specialize (Hk date o s).
    destruct o as [created | err].
    + destruct Hk as (k' & -> & _). intros [Hp | []].
      injection Hp as <-. exists created, req, k. repeat split.
    + destruct Hk as (_ & _ & ->). intros [].
  - destruct pend as [[req k | req k] |]; try (intros []).
    destruct Hreach as (_ & _ & Hk).
    destruct (Hk date o s) as (_ & _ & Hevs).
    intros Hp. destruct (Hevs _ Hp) as [r Hr]. discriminate Hr.
Qed.

(* ================================================================== *)
(** ** The request sent to the create-student operation *)
(* ================================================================== *)

(** C1, as stated, fails: for a draft typed with surrounding blanks and
    capital letters in the email, the request handed to [apiAddStudent]
    carries the name and the email as typed; it is not the normalized
    draft of the specification. *)
Lemma C1_request_not_normalized :
  exists p rest,
    step (at_step 3 draft_as_typed) = 3
    /\ trace (submit (backend_up "Low") mentor (at_step 3 draft_as_typed))
       = EvAddStudent p :: rest
    /\ req_full_name p = " Asha Rao "%string
    /\ req_full_name p <> trim (name draft_as_typed)
    /\ req_email p = "Asha.Rao@Student.EDU"%string
    /\ req_email p <> toLowerCase (email draft_as_typed)
    /\ p <> normalizedRequest_spec draft_as_typed mentor.
Proof.
  eexists; eexists.
  split; [reflexivity |].
  split; [vm_compute; reflexivity |].
  split; [reflexivity |].
  split; [vm_compute; discriminate |].
  split; [reflexivity |].
  split; vm_compute; discriminate.
Qed.

(** C1, amended: for every draft and every user, the first thing a
    submission does is to call the create-student operation, and its
    argument carries the draft's name and email verbatim (and the parent's
    name and email, for the role [parent]), the CGPA and the attendance
    read by [parseFloat], the backlogs read by [parseInt], and the fee
    status in the backend vocabulary: pending to payment_pending, overdue
    to payment_overdue, anything else to paid. *)
Theorem C1_request_carries_draft (b : Backend) (user : option User)
    (s : WizardState) :
  exists rest,
    trace (submit b user s)
    = EvAddStudent
        {| req_full_name := name (studentData s);
           req_email := email (studentData s);
           req_account_type :=
             match role (studentData s) with
             | RoleParent => "student_and_parent"
             | RoleStudent => "student"
             end;
           req_parent_name :=
             match role (studentData s) with
             | RoleParent => Some (parentName (studentData s))
             | RoleStudent => None
             end;
           req_parent_email :=
             match role (studentData s) with
             | RoleParent => Some (parentEmail (studentData s))
             | RoleStudent => None
             end;
           req_current_cgpa := parseFloat (cgpa (studentData s));
           req_attendance_percentage := parseFloat (attendance (studentData s));
           req_fee_status :=
             match feeStatus (studentData s) with
             | FeePending => "payment_pending"
             | FeeOverdue => "payment_overdue"
             | FeePaid | FeeUnset => "paid"
             end;
           req_backlogs := parseInt (backlogs (studentData s));
           req_mentor_id := mentorId user |}
      :: rest.
Proof.
  pose proof (submit_cases b user s) as H. cbv zeta in H. rewrite H.
  unfold addStudentRequest, backendFeeStatus.
  destruct (role (studentData s)); destruct (feeStatus (studentData s));
    cbn [role_eqb fee_eqb];
    match goal with
    | |- context [addStudent b ?r] => destruct (addStudent b r)
    end; eexists; reflexivity.
Qed.

(* ================================================================== *)
(** ** The range checks of step 2 *)
(* ================================================================== *)

(** C2: the checks of step 2 miss values outside the ranges.  Attendance
    and backlogs are read with [parseInt], which drops a fraction and
    yields [NaN] when no digit leads, and no comparison holds of [NaN]:
    with attendance 100.5 or -0.5, with backlogs -.5, or with a CGPA that
    is no number, "Next" moves on to step 3 and leaves the message empty.
    The attendance later sent to the backend is read with [parseFloat] and
    does exceed 100. *)
Theorem C2_out_of_range_draft_passes_step2 :
  handleNext (at_step 2 attendance_fraction_over)
    = at_step 3 attendance_fraction_over
  /\ gt (req_attendance_percentage
           (addStudentRequest attendance_fraction_over mentor)) (of_Z 100)
     = true
  /\ handleNext (at_step 2 attendance_fraction_under)
     = at_step 3 attendance_fraction_under
  /\ lt (req_attendance_percentage
           (addStudentRequest attendance_fraction_under mentor)) (of_Z 0)
     = true
  /\ handleNext (at_step 2 backlogs_no_integer_part)
     = at_step 3 backlogs_no_integer_part
  /\ parseInt (backlogs backlogs_no_integer_part) = NaN
  /\ lt (parseFloat (backlogs backlogs_no_integer_part)) (of_Z 0) = true
  /\ handleNext (at_step 2 cgpa_not_numeric) = at_step 3 cgpa_not_numeric
  /\ parseFloat (cgpa cgpa_not_numeric) = NaN.
Proof. repeat split; vm_compute; reflexivity. Qed.

(* ================================================================== *)
(** ** The two backend calls *)
(* ================================================================== *)

(** C3: when the create-student call succeeds and the predict-risk call
    fails, the record handed to [onStudentAdded] has risk tier "low" and
    score 0, and the error message of the wizard is empty when the
    submission ends. *)
Theorem C3_prediction_failure_defaults (b : Backend) (user : option User)
    (s : WizardState) (created : Created) (err : JSError) :
  addStudent b (addStudentRequest (studentData s) user) = Fulfilled created ->
  predictRisk b (predictRiskRequest created) = Rejected err ->
  exists r,
    trace (submit b user s)
    = [EvAddStudent (addStudentRequest (studentData s) user);
       EvPredictRisk (predictRiskRequest created);
       EvStudentAdded r]
    /\ dropoutRisk r = "low"%string
    /\ riskScore r = 0
    /\ error (final (submit b user s)) = ""%string
    /\ result (submit b user s) = Fulfilled tt.
Proof.
  intros Hcreate Hpredict.
  pose proof (submit_cases b user s) as H. cbv zeta in H.
  rewrite Hcreate, Hpredict in H. rewrite H.
  eexists. repeat split.
Qed.

Lemma C3_prediction_failure_defaults_witness :
  addStudent backend_without_model (addStudentRequest draft mentor)
    = Fulfilled (stored (addStudentRequest draft mentor))
  /\ predictRisk backend_without_model
       (predictRiskRequest (stored (addStudentRequest draft mentor)))
     = Rejected "503 Service Unavailable"
  /\ exists r,
       trace (submit backend_without_model mentor (at_step 3 draft))
       = [EvAddStudent (addStudentRequest draft mentor);
          EvPredictRisk
            (predictRiskRequest (stored (addStudentRequest draft mentor)));
          EvStudentAdded r]
       /\ dropoutRisk r = "low"%string
       /\ riskScore r = 0
       /\ error (final (submit backend_without_model mentor (at_step 3 draft)))
          = ""%string
       /\ result (submit backend_without_model mentor (at_step 3 draft))
          = Fulfilled tt.
Proof.
  split; [reflexivity |]. split; [reflexivity |].
  apply (@C3_prediction_failure_defaults backend_without_model mentor
           (at_step 3 draft) (stored (addStudentRequest draft mentor))
           "503 Service Unavailable"); reflexivity.
Defined.

(** C4: when the create-student call fails, the wizard stays in state 3,
    a non-empty error message is set, [onStudentAdded] is not called, the
    submitting flag is cleared, and step and draft are what they were:
    the state after the submission is the state before it with the error
    message set and the flag off.  Nothing is thrown past the handler, and
    the submit button takes a click again, which sends the same request. *)
Theorem C4_creation_failure (b : Backend) (user : option User)
    (s : WizardState) (err : JSError) :
  step s = 3 ->
  addStudent b (addStudentRequest (studentData s) user) = Rejected err ->
  step (final (submit b user s)) = 3
  /\ error (final (submit b user s)) <> ""%string
  /\ (forall r, ~ In (EvStudentAdded r) (trace (submit b user s)))
  /\ isSubmitting (final (submit b user s)) = false
  /\ studentData (final (submit b user s)) = studentData s
  /\ final (submit b user s)
     = setIsSubmitting false
         (setError "An error occurred while creating the student profile" s)
  /\ result (submit b user s) = Fulfilled tt
  /\ snd (react user (today b)
            {| ui := final (submit b user s); pending := None |} ClickSubmit)
     = [EvAddStudent (addStudentRequest (studentData s) user)].
Proof.
  intros Hstep Hcreate.
  pose proof (submit_cases b user s) as H. cbv zeta in H.
  rewrite Hcreate in H. rewrite H. cbn [final trace result].
  split; [exact Hstep |].
  split; [discriminate |].
  split; [intros r [Hr | []]; discriminate Hr |].
  split; [reflexivity |].
  split; [reflexivity |].
  split; [reflexivity |].
  split; [reflexivity |].
  unfold react, handleSubmit; simpl. rewrite Hstep. reflexivity.
Qed.

Lemma C4_creation_failure_witness :
  step (at_step 3 draft) = 3
  /\ addStudent backend_down (addStudentRequest draft mentor)
     = Rejected "Failed to fetch"
  /\ step (final (submit backend_down mentor (at_step 3 draft))) = 3
  /\ error (final (submit backend_down mentor (at_step 3 draft))) <> ""%string
  /\ (forall r,
        ~ In (EvStudentAdded r)
             (trace (submit backend_down mentor (at_step 3 draft))))
  /\ isSubmitting (final (submit backend_down mentor (at_step 3 draft))) = false
  /\ studentData (final (submit backend_down mentor (at_step 3 draft))) = draft.
Proof.
  split; [reflexivity |]. split; [reflexivity |].
  destruct (@C4_creation_failure backend_down mentor (at_step 3 draft)
              "Failed to fetch" eq_refl eq_refl)
    as (H1 & H2 & H3 & H4 & H5 & _).
  repeat split; assumption.
Defined.

(** C5: the predict-risk operation is called only after the
    create-student operation has answered, and only when that answer is a
    success.  A submission whose create call fails emits that call and
    nothing else; one whose create call succeeds emits the create call,
    then the predict call built from the created record, then the
    callback.  In the event loop, the click emits the create call alone,
    and the predict call is emitted in the turn in which the create call
    settles, when it settles with a record; in no state the component can
    be in does any other turn call the predict operation. *)
Theorem C5_predict_only_after_create (b : Backend) (user : option User)
    (s : WizardState) :
  match addStudent b (addStudentRequest (studentData s) user) with
  | Rejected _ =>
      trace (submit b user s)
      = [EvAddStudent (addStudentRequest (studentData s) user)]
      /\ forall p, ~ In (EvPredictRisk p) (trace (submit b user s))
  | Fulfilled created =>
      exists r,
        trace (submit b user s)
        = [EvAddStudent (addStudentRequest (studentData s) user);
           EvPredictRisk (predictRiskRequest created);
           EvStudentAdded r]
  end
  /\ (step s = 3 -> isSubmitting s = false ->
      forall (date : string) (o : Outcome Created),
        snd (react user date {| ui := s; pending := None |} ClickSubmit)
        = [EvAddStudent (addStudentRequest (studentData s) user)]
        /\ snd (react user date
                  (fst (react user date {| ui := s; pending := None |}
                          ClickSubmit))
                  (AddStudentSettled o))
           = match o with
             | Fulfilled created => [EvPredictRisk (predictRiskRequest created)]
             | Rejected _ => []
             end)
  /\ (forall (c : Component) (u : option User) (date : string)
             (ev : UIEvent) (p : PredictRiskRequest),
        reachable c ->
        In (EvPredictRisk p) (snd (react u date c ev)) ->
        exists created req k,
          ev = AddStudentSettled (Fulfilled created)
          /\ pending c = Some (AwaitAddStudent req k)
          /\ p = predictRiskRequest created).
Proof.
  split; [| split].
  - pose proof (submit_cases b user s) as H. cbv zeta in H.
    destruct (addStudent b (addStudentRequest (studentData s) user))
      as [created | err]; rewrite H.
    + eexists; reflexivity.
    + split; [reflexivity |].
      intros p [Hp | []]. discriminate Hp.
  - intros Hstep Hidle date o.
    unfold react, handleSubmit; simpl. rewrite Hstep, Hidle; simpl.
    split; [reflexivity |].
    destruct o; reflexivity.
  - intros c u date ev p Hreach Hp.
    exact (@predict_follows_create u date c ev p Hreach Hp).
Qed.

(* ================================================================== *)
(** ** "Previous" *)
(* ================================================================== *)

(** C6, as stated, fails: with the form filled in and the submission in
    flight (the create call sent, not yet answered), the component is on
    step 3 with its "Previous" button disabled; the click changes nothing
    and the step stays 3. *)
Lemma C6_previous_disabled_in_flight :
  reachable submitting
  /\ step (ui submitting) = 3
  /\ isSubmitting (ui submitting) = true
  /\ (exists p k, pending submitting = Some (AwaitAddStudent p k))
  /\ react mentor "2025-09-01" submitting ClickPrevious = (submitting, [])
  /\ step (ui (fst (react mentor "2025-09-01" submitting ClickPrevious)))
     <> step (ui submitting) - 1.
Proof.
  split; [apply (reacts_reachable mentor "2025-09-01"); constructor |].
  split; [reflexivity |].
  split; [reflexivity |].
  split; [eexists; eexists; reflexivity |].
  split; [reflexivity |].
  vm_compute; discriminate.
Qed.

(** C6, amended: from state 2, and from state 3 while the submitting flag
    is off, "Previous" runs no validation and moves the step back by one:
    draft, error message and submitting flag stay as they are, nothing is
    emitted and a pending request stays pending.  In state 3 with the
    submitting flag on (from the click on "Create Student Profile" on,
    until a failed create call clears it) the button is disabled and the
    click changes nothing; so it is in every state the component can be
    in with a request in flight. *)
Theorem C6_previous_when_enabled (user : option User) (date : string)
    (c : Component) :
  (step (ui c) = 2 \/ (step (ui c) = 3 /\ isSubmitting (ui c) = false) ->
   react user date c ClickPrevious
   = ({| ui := setStep (step (ui c) - 1) (ui c); pending := pending c |}, []))
  /\ (step (ui c) = 3 /\ isSubmitting (ui c) = true ->
      react user date c ClickPrevious = (c, []))
  /\ (reachable c -> pending c <> None ->
      react user date c ClickPrevious = (c, [])).
Proof.
  assert (Hbusy : step (ui c) = 3 /\ isSubmitting (ui c) = true ->
                  react user date c ClickPrevious = (c, [])).
  { destruct c as [s pend]; unfold react, clickPrevious; cbn [ui pending].
    intros [H3 Hflag]. rewrite H3, Hflag. reflexivity. }
  split; [| split].
  - destruct c as [s pend]; unfold react, clickPrevious; cbn [ui pending].
    intros [H2 | [H3 Hidle]].
    + rewrite H2. reflexivity.
    + rewrite H3, Hidle. reflexivity.
  - exact Hbusy.
  - intros Hreach Hpending. apply Hbusy.
    apply reachable_inFlight in Hreach. unfold inFlight in Hreach.
    destruct (pending c) as [[p k | p k] |];
      [| | contradiction Hpending; reflexivity];
      destruct Hreach as (H3 & Hflag & _); split; assumption.
Qed.

Lemma C6_previous_when_enabled_witness :
  (step (ui reviewing) = 3 /\ isSubmitting (ui reviewing) = false)
  /\ step (ui (fst (react mentor "2025-09-01" reviewing ClickPrevious))) = 2
  /\ (step (ui submitting) = 3 /\ isSubmitting (ui submitting) = true)
  /\ react mentor "2025-09-01" submitting ClickPrevious = (submitting, []).
Proof.
  split; [split; reflexivity |].
  split.
  - rewrite (proj1 (C6_previous_when_enabled mentor "2025-09-01" reviewing)
               (or_intror (conj eq_refl eq_refl))).
    reflexivity.
  - split; [split; reflexivity |].
    exact (proj1 (proj2 (C6_previous_when_enabled mentor "2025-09-01"
                           submitting))
             (conj eq_refl eq_refl)).
Defined.

(* ================================================================== *)
(** ** Risk tier and score *)
(* ================================================================== *)

(** What a submission hands to [onStudentAdded] when both calls succeed. *)
Lemma submit_assessed (b : Backend) (user : option User) (s : WizardState)
    (created : Created) (resp : RiskResponse) :
  addStudent b (addStudentRequest (studentData s) user) = Fulfilled created ->
  predictRisk b (predictRiskRequest created) = Fulfilled resp ->
  trace (submit b user s)
  = [EvAddStudent (addStudentRequest (studentData s) user);
     EvPredictRisk (predictRiskRequest created);
     EvStudentAdded
       (newStudentRecord (studentData s) user created
          (toLowerCase (risk_level resp))
          (if (toLowerCase (risk_level resp) =? "high")%string then 80
           else if (toLowerCase (risk_level resp) =? "medium")%string then 50
                else 20)
          (today b))].
Proof.
  intros Hcreate Hpredict.
  pose proof (submit_cases b user s) as H. cbv zeta in H.
  rewrite Hcreate, Hpredict in H. rewrite H. reflexivity.
Qed.

(** C7: when the create call and the predict call both succeed, the tier
    of the assembled record is the returned risk level in lower case, and
    its score follows the table high 80, medium 50, low 20; in particular
    a returned level "High" gives tier "high" and score 80. *)
Theorem C7_prediction_success_tier_and_score (b : Backend)
    (user : option User) (s : WizardState)
    (created : Created) (resp : RiskResponse) :
  addStudent b (addStudentRequest (studentData s) user) = Fulfilled created ->
  predictRisk b (predictRiskRequest created) = Fulfilled resp ->
  exists r,
    trace (submit b user s)
    = [EvAddStudent (addStudentRequest (studentData s) user);
       EvPredictRisk (predictRiskRequest created);
       EvStudentAdded r]
    /\ dropoutRisk r = toLowerCase (risk_level resp)
    /\ (dropoutRisk r = "high"%string -> riskScore r = 80)
    /\ (dropoutRisk r = "medium"%string -> riskScore r = 50)
    /\ (dropoutRisk r = "low"%string -> riskScore r = 20)
    /\ (risk_level resp = "High"%string ->
        dropoutRisk r = "high"%string /\ riskScore r = 80).
Proof.
  intros Hcreate Hpredict.
  rewrite (submit_assessed b user s Hcreate Hpredict).
  eexists. split; [reflexivity |]. cbn [dropoutRisk riskScore newStudentRecord].
  split; [reflexivity |].
  split; [intros ->; reflexivity |].
  split; [intros ->; reflexivity |].
  split; [intros ->; reflexivity |].
  intros ->. split; reflexivity.
Qed.

Lemma C7_prediction_success_tier_and_score_witness :
  addStudent (backend_up "High") (addStudentRequest draft mentor)
    = Fulfilled (stored (addStudentRequest draft mentor))
  /\ predictRisk (backend_up "High")
       (predictRiskRequest (stored (addStudentRequest draft mentor)))
     = Fulfilled {| risk_level := "High" |}
  /\ exists r,
       In (EvStudentAdded r)
          (trace (submit (backend_up "High") mentor (at_step 3 draft)))
       /\ dropoutRisk r = "high"%string /\ riskScore r = 80.
Proof.
  split; [reflexivity |]. split; [reflexivity |].
  destruct (@C7_prediction_success_tier_and_score (backend_up "High") mentor
              (at_step 3 draft) (stored (addStudentRequest draft mentor))
              {| risk_level := "High" |} eq_refl eq_refl)
    as (r & Htrace & _ & _ & _ & _ & Hhigh).
  exists r. split.
  - rewrite Htrace. right; right; left; reflexivity.
  - exact (Hhigh eq_refl).
Defined.

(** C8: when the predict call succeeds, the score of the assembled record
    is 80, 50 or 20 and never 0; a returned level whose lower-case form is
    neither "high" nor "medium" gives score 20, whatever the string; and
    the tier is the returned string in lower case, as it is. *)
Theorem C8_prediction_success_score_range (b : Backend)
    (user : option User) (s : WizardState)
    (created : Created) (resp : RiskResponse) :
  addStudent b (addStudentRequest (studentData s) user) = Fulfilled created ->
  predictRisk b (predictRiskRequest created) = Fulfilled resp ->
  exists r,
    trace (submit b user s)
    = [EvAddStudent (addStudentRequest (studentData s) user);
       EvPredictRisk (predictRiskRequest created);
       EvStudentAdded r]
    /\ (riskScore r = 80 \/ riskScore r = 50 \/ riskScore r = 20)
    /\ riskScore r <> 0
    /\ (toLowerCase (risk_level resp) <> "high"%string ->
        toLowerCase (risk_level resp) <> "medium"%string ->
        riskScore r = 20)
    /\ dropoutRisk r = toLowerCase (risk_level resp).
Proof.
  intros Hcreate Hpredict.
  rewrite (submit_assessed b user s Hcreate Hpredict).
  eexists. split; [reflexivity |]. cbn [dropoutRisk riskScore newStudentRecord].
  destruct (String.eqb_spec (toLowerCase (risk_level resp)) "high")
    as [Hhigh | Hhigh];
    [| destruct (String.eqb_spec (toLowerCase (risk_level resp)) "medium")
         as [Hmedium | Hmedium]].
  - repeat split; auto; try discriminate. intros H; contradiction.
  - repeat split; auto; try discriminate. intros _ H; contradiction.
  - repeat split; auto; discriminate.
Qed.

Lemma C8_prediction_success_score_range_witness :
  addStudent (backend_up "Critical") (addStudentRequest draft mentor)
    = Fulfilled (stored (addStudentRequest draft mentor))
  /\ predictRisk (backend_up "Critical")
       (predictRiskRequest (stored (addStudentRequest draft mentor)))
     = Fulfilled {| risk_level := "Critical" |}
  /\ exists r,
       In (EvStudentAdded r)
          (trace (submit (backend_up "Critical") mentor (at_step 3 draft)))
       /\ dropoutRisk r = "critical"%string /\ riskScore r = 20.
Proof.
  split; [reflexivity |]. split; [reflexivity |].
  destruct (@C8_prediction_success_score_range (backend_up "Critical") mentor
              (at_step 3 draft) (stored (addStudentRequest draft mentor))
              {| risk_level := "Critical" |} eq_refl eq_refl)
    as (r & Htrace & _ & _ & Hother & Htier).
  exists r. split.
  - rewrite Htrace. right; right; left; reflexivity.
  - split; [exact Htier |].
    apply Hother; vm_compute; discriminate.
Defined.

(* ================================================================== *)
(** ** The step index *)
(* ================================================================== *)

(** C9: the step index is 1, 2 or 3 in every state the mounted component
    can be in, every turn of the event loop (a change of an input, "Next",
    "Previous", the submission and the settlement of either call, with
    success or failure) keeps it so, a whole submission leaves the step
    where it was, and "Next" in state 3 leaves the step at 3: it only
    resets the error message. *)
Theorem C9_step_index_in_range (c : Component) :
  reachable c ->
  validStep (ui c)
  /\ (forall user date ev, validStep (ui (fst (react user date c ev))))
  /\ (forall b user, step (final (submit b user (ui c))) = step (ui c))
  /\ (forall s, step s = 3 ->
                step (handleNext s) = 3 /\ handleNext s = setError "" s).
Proof.
  intros Hc. pose proof (reachable_validStep Hc) as Hvalid.
  split; [exact Hvalid |].
  split; [intros user date ev; apply react_validStep, Hvalid |].
  split.
  - intros b user. unfold submit.
    exact (proj1 (run_frame b (handleSubmit (studentData (ui c)) user) (ui c))).
  - intros s Hs. rewrite (handleNext_last_step s Hs).
    split; [exact Hs | reflexivity].
Qed.

Lemma C9_step_index_in_range_witness :
  reachable submitting
  /\ step (ui submitting) = 3
  /\ validStep (ui (fst (react mentor "2025-09-01" submitting
                           (AddStudentSettled (Rejected "Failed to fetch")))))
  /\ step (handleNext (ui reviewing)) = 3.
Proof.
  assert (Hreach : reachable submitting)
    by (apply (reacts_reachable mentor "2025-09-01"); constructor).
  split; [exact Hreach |].
  split; [reflexivity |].
  destruct (@C9_step_index_in_range submitting Hreach)
    as (_ & Hturn & _ & Hnext).
  split; [apply Hturn |].
  exact (proj1 (Hnext (ui reviewing) eq_refl)).
Defined.

(* ================================================================== *)
(** ** The mentor identifier *)
(* ================================================================== *)

Lemma truthy_number_false (n : number) :
  truthy_number n = false <-> n = NaN \/ exists sign, n = S754_zero sign.
Proof.
  destruct n as [sign | sign | | sign m e]; simpl; split;
    try discriminate; try tauto.
  - intros _. right. exists sign. reflexivity.
  - intros [H | [sg H]]; discriminate.
  - intros [H | [sg H]]; discriminate.
Qed.

(** C10: the [mentor_id] sent to the create-student operation is the
    number the current user's id coerces to, and it is 0 when nobody is
    signed in or when the id coerces to no non-zero number ([NaN] or a
    zero). *)
Theorem C10_mentor_id (b : Backend) (user : option User) (s : WizardState) :
  exists p rest,
    trace (submit b user s) = EvAddStudent p :: rest
    /\ match user with
       | None => req_mentor_id p = of_Z 0
       | Some u =>
           (Number (user_id u) = NaN \/
            (exists sign, Number (user_id u) = S754_zero sign) ->
            req_mentor_id p = of_Z 0)
           /\ (Number (user_id u) <> NaN ->
               (forall sign, Number (user_id u) <> S754_zero sign) ->
               req_mentor_id p = Number (user_id u))
       end.
Proof.
  pose proof (submit_cases b user s) as H. cbv zeta in H.
  exists (addStudentRequest (studentData s) user).
  assert (Htrace : exists rest,
             trace (submit b user s)
             = EvAddStudent (addStudentRequest (studentData s) user) :: rest).
  { rewrite H. destruct (addStudent b _); eexists; reflexivity. }
  destruct Htrace as [rest Htrace]. exists rest.
  split; [exact Htrace |].
  cbn [req_mentor_id addStudentRequest]. unfold mentorId, or_number.
  destruct user as [u |].
  - split.
    + intros Hfalsy. apply truthy_number_false in Hfalsy.
      rewrite Hfalsy. reflexivity.
    + intros Hnan Hzero.
      destruct (truthy_number (Number (user_id u))) eqn:Htruthy;
        [reflexivity |].
      apply truthy_number_false in Htruthy.
      destruct Htruthy as [Hn | [sign Hz]];
        [contradiction | exfalso; exact (Hzero sign Hz)].
  - reflexivity.
Qed.

(* ================================================================== *)
(** ** Further properties of the wizard *)
(* ================================================================== *)

Import Screen.

Lemma truthy_nonempty (t : string) : truthy t = true <-> t <> ""%string.
Proof. destruct t; simpl; split; congruence. Qed.

Lemma truthy_empty (t : string) : truthy t = false <-> t = ""%string.
Proof. destruct t; simpl; split; congruence. Qed.

(** Step 1: what "Next" does, by the fields of the draft. *)
Lemma handleNext_step1 (s : WizardState) :
  step s = 1 ->
  (step1_ok (studentData s) /\ handleNext s = setStep 2 (setError "" s))
  \/ (~ step1_ok (studentData s) /\
      exists msg, msg <> ""%string /\ handleNext s = setError msg s).
Proof.
  unfold handleNext, step1_ok. intros Hs. rewrite Hs.
  change (1 =? 1) with true. cbv zeta iota.
  destruct (truthy (name (studentData s))) eqn:Hname; cbn [negb orb].
  2: { right. apply truthy_empty in Hname. split; [tauto |].
       eexists; split; [| reflexivity]. discriminate. }
  destruct (truthy (email (studentData s))) eqn:Hemail; cbn [negb orb].
  2: { right. apply truthy_empty in Hemail. split; [tauto |].
       eexists; split; [| reflexivity]. discriminate. }
  apply truthy_nonempty in Hname, Hemail.
  destruct (role (studentData s)) eqn:Hrole; cbn [role_eqb andb].
  { left. repeat split; try assumption; discriminate. }
  destruct (truthy (parentName (studentData s))) eqn:Hpn; cbn [negb orb].
  2: { right. apply truthy_empty in Hpn. split; [tauto |].
       eexists; split; [| reflexivity]. discriminate. }
  destruct (truthy (parentEmail (studentData s))) eqn:Hpe; cbn [negb orb].
  2: { right. apply truthy_empty in Hpe. split; [tauto |].
       eexists; split; [| reflexivity]. discriminate. }
  apply truthy_nonempty in Hpn, Hpe.
  left. repeat split; assumption.
Qed.

(** Step 2: the same, by the checks of the handler. *)
Lemma handleNext_step2_cases (s : WizardState) :
  step s = 2 ->
  (step2_rejected (studentData s) = false
   /\ handleNext s = setStep 3 (setError "" s))
  \/ (step2_rejected (studentData s) = true /\
      exists msg, msg <> ""%string /\ handleNext s = setError msg s).
Proof.
  unfold handleNext, step2_rejected. intros Hs. rewrite Hs.
  change (2 =? 1) with false. change (2 =? 2) with true. cbv zeta iota.
  destruct (negb (truthy (cgpa (studentData s)))
            || negb (truthy (attendance (studentData s)))
            || negb (fee_truthy (feeStatus (studentData s)))
            || negb (truthy (backlogs (studentData s)))); cbn [orb].
  { right. split; [reflexivity |]. eexists; split; [| reflexivity]. discriminate. }
  destruct (lt (parseFloat (cgpa (studentData s))) (of_Z 0)); cbn [orb].
  { right. split; [reflexivity |]. eexists; split; [| reflexivity]. discriminate. }
  destruct (gt (parseFloat (cgpa (studentData s))) (of_Z 10)); cbn [orb].
  { right. split; [reflexivity |]. eexists; split; [| reflexivity]. discriminate. }
  destruct (lt (parseInt (attendance (studentData s))) (of_Z 0)); cbn [orb].
  { right. split; [reflexivity |]. eexists; split; [| reflexivity]. discriminate. }
  destruct (gt (parseInt (attendance (studentData s))) (of_Z 100)); cbn [orb].
  { right. split; [reflexivity |]. eexists; split; [| reflexivity]. discriminate. }
  destruct (lt (parseInt (backlogs (studentData s))) (of_Z 0)); cbn [orb].
  { right. split; [reflexivity |]. eexists; split; [| reflexivity]. discriminate. }
  left. split; reflexivity.
Qed.

(** The click on "Create Student Profile", with all the handler does once
    the create call is answered. *)
Lemma drive_handleSubmit_cont (user : option User) (date : string)
    (s : WizardState) :
  exists k,
    drive date (handleSubmit (studentData s) user) s
    = ({| ui := setIsSubmitting true (setError "" s);
          pending := Some (AwaitAddStudent
                             (addStudentRequest (studentData s) user) k) |},
       [EvAddStudent (addStudentRequest (studentData s) user)])
    /\ createCont k.
Proof.
  unfold handleSubmit; simpl. eexists. split; [reflexivity |].
  intros date' [created | err] s'; simpl.
  - eexists. split; [reflexivity |].
    intros date'' [resp | err] s''; simpl; eexists; reflexivity.
  - reflexivity.
Qed.

Lemma rendered_step (s : WizardState) (f : Field) :
  rendered s f = true -> step s = 1 \/ step s = 2.
Proof.
  destruct f; simpl; intros H;
    try (apply andb_true_iff in H; destruct H as [H _]);
    apply Z.eqb_eq in H; auto.
Qed.

Lemma rendered_keeps_step1 (s : WizardState) (f : Field) :
  rendered s f = true -> 2 <= step s ->
  step1_ok (studentData s) -> step1_ok (withField f (studentData s)).
Proof.
  destruct f; simpl; intros H Hge Hok;
    try (apply andb_true_iff in H; destruct H as [H _]);
    apply Z.eqb_eq in H; try lia; exact Hok.
Qed.

Ltac wf_pending_off Hp H3 :=
  match type of Hp with
  | match ?pend with _ => _ end =>
      destruct pend as [[? ? | ? ?] |]; [| | exact I];
      destruct Hp as [Hflag _]; specialize (H3 Hflag); lia
  end.

Ltac conjs := repeat match goal with |- _ /\ _ => split end.

Lemma react_wellFormed (user : option User) (date : string)
    (c : Component) (ev : UIEvent) :
  wellFormed c -> wellFormed (fst (react user date c ev)).
Proof.
  destruct c as [s pend]. unfold wellFormed, react; cbn [ui pending].
  intros (Hv & H1 & H2 & H3 & H4 & Hp).
  destruct ev as [f | | | | o | o].
  - destruct (rendered s f) eqn:Hf; cbn [fst ui pending];
      [| conjs; assumption].
    destruct (rendered_step s f Hf) as [Hs | Hs].
    + conjs; cbn [step studentData error isSubmitting setStudentData];
        try assumption; intros; lia.
    + conjs; cbn [step studentData error isSubmitting setStudentData];
        try assumption; try (intros; lia).
      intros Hge. apply rendered_keeps_step1; auto.
  - destruct ((step s =? 1) || (step s =? 2)) eqn:Hnext; cbn [fst ui pending];
      [| conjs; assumption].
    apply orb_true_iff in Hnext.
    destruct Hnext as [Hs | Hs]; apply Z.eqb_eq in Hs.
    + destruct (handleNext_step1 s Hs) as [[Hok ->] | [_ (msg & _ & ->)]];
        cbn [step studentData error isSubmitting setStep setError];
        (split; [unfold validStep; cbn; auto |]);
        (split; [intros; try lia; assumption |]);
        (split; [intros; lia |]);
        (split; [intros Hflag; specialize (H3 Hflag); lia |]);
        (split; [intros; lia |]);
        wf_pending_off Hp H3.
    + destruct (handleNext_step2_cases s Hs)
        as [[Hok ->] | [_ (msg & _ & ->)]];
        cbn [step studentData error isSubmitting setStep setError];
        (split; [unfold validStep; cbn; auto |]);
        (split; [intros; apply H1; lia |]);
        (split; [intros; try lia; assumption |]);
        (split; [intros Hflag; specialize (H3 Hflag); lia |]);
        (split; [intros; try lia; left; reflexivity |]);
        wf_pending_off Hp H3.
  - cbn [fst ui pending]. unfold clickPrevious.
    destruct (step s =? 2) eqn:Hs2; [apply Z.eqb_eq in Hs2 |].
    { cbn [step studentData error isSubmitting setStep].
      split; [unfold validStep; cbn; auto |].
      split; [intros; lia |].
      split; [intros; lia |].
      split; [intros Hflag; specialize (H3 Hflag); lia |].
      split; [intros; lia |].
      wf_pending_off Hp H3. }
    destruct (step s =? 3) eqn:Hs3; [apply Z.eqb_eq in Hs3 |];
      [| conjs; assumption].
    destruct (isSubmitting s) eqn:Hflag;
      [cbv iota; rewrite ?Hflag; conjs; assumption |].
    cbn [step studentData error isSubmitting setStep].
    split; [unfold validStep; cbn; auto |].
    split; [intros; apply H1; lia |].
    split; [intros; lia |].
    split; [intros Hf; try rewrite Hflag in Hf; discriminate Hf |].
    split; [intros; lia |].
    destruct pend as [[? ? | ? ?] |]; [| | exact I];
      destruct Hp as [Hf _]; try rewrite Hflag in Hf; discriminate Hf.
  - destruct ((step s =? 3) && negb (isSubmitting s)) eqn:Hsubmit;
      [| conjs; assumption].
    apply andb_true_iff in Hsubmit. destruct Hsubmit as [Hs3 _].
    apply Z.eqb_eq in Hs3.
    destruct (drive_handleSubmit_cont user date s) as (k & -> & Hk).
    cbn [fst ui pending step studentData error isSubmitting
         setIsSubmitting setError].
    conjs; try assumption; auto.
  - destruct pend as [[p k | p k] |]; try (conjs; assumption).
    destruct Hp as [Hflag Hk]. specialize (Hk date o s).
    destruct o as [created | err].
    + destruct Hk as (k' & -> & Hk'). cbn [fst ui pending].
      conjs; assumption.
    + rewrite Hk.
      cbn [fst ui pending step studentData error isSubmitting
           setIsSubmitting setError].
      conjs; try assumption; try (intros Hf; discriminate Hf); auto.
  - destruct pend as [[p k | p k] |]; try (conjs; assumption).
    destruct Hp as [Hflag Hk]. destruct (Hk date o s) as [r ->].
    cbn [fst ui pending]. conjs; try assumption. exact I.
Qed.

Lemma reachable_wellFormed (c : Component) : reachable c -> wellFormed c.
Proof.
  induction 1 as [| user date c ev Hc IH].
  - unfold wellFormed, mount, initialState; cbn.
    repeat split; try (intros; lia); try discriminate.
    left; reflexivity.
  - apply react_wellFormed, IH.
Qed.

Import MoreSamples.

(** X1: "Next" on step 1 moves to step 2 exactly when name and email are
    filled in and, for the role [parent], the parent's name and email as
    well (for the role [student] the parent fields are not looked at);
    otherwise the step stays 1, a message is set and the draft is as it
    was. *)
Theorem X1_next_from_step1 (s : WizardState) :
  step s = 1 ->
  (step (handleNext s) = 2 <-> step1_ok (studentData s))
  /\ (step1_ok (studentData s) -> handleNext s = setStep 2 (setError "" s))
  /\ (~ step1_ok (studentData s) ->
      step (handleNext s) = 1
      /\ error (handleNext s) <> ""%string
      /\ studentData (handleNext s) = studentData s).
Proof.
  intros Hs.
  destruct (handleNext_step1 s Hs) as [[Hok Heq] | [Hbad (msg & Hmsg & Heq)]];
    rewrite Heq; cbn [step error studentData setStep setError].
  - split; [tauto |]. split; [reflexivity | contradiction].
  - split; [split; [lia | contradiction] |].
    split; [contradiction |].
    intros _. auto.
Qed.

Lemma X1_next_from_step1_witness :
  step (at_step 1 draft_parent_incomplete) = 1
  /\ ~ step1_ok draft_parent_incomplete
  /\ step (handleNext (at_step 1 draft_parent_incomplete)) = 1
  /\ error (handleNext (at_step 1 draft_parent_incomplete))
     = "Please provide parent information"%string
  /\ step (at_step 1 draft) = 1
  /\ handleNext (at_step 1 draft) = at_step 2 draft.
Proof.
  assert (Hbad : ~ step1_ok draft_parent_incomplete).
  { intros (_ & _ & Hparent). destruct (Hparent eq_refl) as [_ Hpe].
    apply Hpe. reflexivity. }
  split; [reflexivity |]. split; [exact Hbad |].
  destruct (@X1_next_from_step1 (at_step 1 draft_parent_incomplete) eq_refl)
    as (_ & _ & Hstay).
  split; [exact (proj1 (Hstay Hbad)) |].
  split; [reflexivity |]. split; reflexivity.
Defined.

(** X2: one turn of the event loop moves the step by at most one: only
    "Next" moves it forward (and then the message is empty), only
    "Previous" moves it back (the message as it was), and only a change of
    an input alters the draft. *)
Theorem X2_one_step_per_turn (user : option User) (date : string)
    (c : Component) (ev : UIEvent) :
  (step (ui (fst (react user date c ev))) = step (ui c)
   \/ (ev = ClickNext
       /\ step (ui (fst (react user date c ev))) = step (ui c) + 1
       /\ error (ui (fst (react user date c ev))) = ""%string)
   \/ (ev = ClickPrevious
       /\ step (ui (fst (react user date c ev))) = step (ui c) - 1
       /\ error (ui (fst (react user date c ev))) = error (ui c)))
  /\ ((forall f, ev <> Change f) ->
      studentData (ui (fst (react user date c ev))) = studentData (ui c)).
Proof.
  destruct c as [s pend]. unfold react; cbn [ui pending].
  destruct ev as [f | | | | o | o].
  - split; [left | intros H; exfalso; apply (H f); reflexivity].
    destruct (rendered s f); reflexivity.
  - split; [| intros _;
              destruct ((step s =? 1) || (step s =? 2));
              [apply handleNext_frame | reflexivity]].
    destruct ((step s =? 1) || (step s =? 2)) eqn:Hnext; [| left; reflexivity].
    cbn [fst ui]. apply orb_true_iff in Hnext.
    destruct Hnext as [Hs | Hs]; apply Z.eqb_eq in Hs.
    + destruct (handleNext_step1 s Hs) as [[_ ->] | [_ (msg & _ & ->)]];
        [right; left | left]; cbn; rewrite ?Hs; auto.
    + destruct (handleNext_step2_cases s Hs)
        as [[_ ->] | [_ (msg & _ & ->)]];
        [right; left | left]; cbn; rewrite ?Hs; auto.
  - split; [| intros _; cbn [fst ui]; unfold clickPrevious;
              destruct (step s =? 2); [reflexivity |];
              destruct (step s =? 3); [| reflexivity];
              destruct (isSubmitting s); reflexivity].
    cbn [fst ui]. unfold clickPrevious.
    destruct (step s =? 2) eqn:H2; [apply Z.eqb_eq in H2 |].
    { right; right. cbn. rewrite H2. auto. }
    destruct (step s =? 3) eqn:H3; [apply Z.eqb_eq in H3 | left; reflexivity].
    destruct (isSubmitting s); [left; reflexivity |].
    right; right. cbn. rewrite H3. auto.
  - destruct ((step s =? 3) && negb (isSubmitting s)).
    + destruct (drive_frame date (handleSubmit (studentData s) user) s)
        as [H1 H2]. split; [left; exact H1 | intros _; exact H2].
    + split; [left |]; reflexivity.
  - destruct pend as [[p k | p k] |]; try (split; [left |]; reflexivity).
    destruct (drive_frame date (k o) s) as [H1 H2].
    split; [left; exact H1 | intros _; exact H2].
  - destruct pend as [[p k | p k] |]; try (split; [left |]; reflexivity).
    destruct (drive_frame date (k o) s) as [H1 H2].
    split; [left; exact H1 | intros _; exact H2].
Qed.

(** What a draft that passed the checks of step 2 is known to satisfy. *)
Lemma step2_accepted (d : StudentData) :
  step2_rejected d = false ->
  cgpa d <> ""%string /\ attendance d <> ""%string
  /\ feeStatus d <> FeeUnset /\ backlogs d <> ""%string
  /\ lt (parseFloat (cgpa d)) (of_Z 0) = false
  /\ gt (parseFloat (cgpa d)) (of_Z 10) = false
  /\ lt (parseInt (attendance d)) (of_Z 0) = false
  /\ gt (parseInt (attendance d)) (of_Z 100) = false
  /\ lt (parseInt (backlogs d)) (of_Z 0) = false.
Proof.
  unfold step2_rejected. intros H.
  repeat (apply orb_false_iff in H; destruct H as [H ?]).
  repeat match goal with
         | Hx : negb _ = false |- _ => apply negb_false_iff in Hx
         end.
  repeat match goal with
         | Hx : truthy _ = true |- _ => apply truthy_nonempty in Hx
         end.
  conjs; try assumption.
  intros Hfee. rewrite Hfee in *. discriminate.
Qed.

(** Which turns send the create request. *)
Lemma create_request_turn (user : option User) (date : string)
    (c : Component) (ev : UIEvent) (p : AddStudentRequest) :
  wellFormed c ->
  In (EvAddStudent p) (snd (react user date c ev)) ->
  ev = ClickSubmit /\ step (ui c) = 3
  /\ p = addStudentRequest (studentData (ui c)) user.
Proof.
  destruct c as [s pend]. unfold wellFormed, react; cbn [ui pending].
  intros (_ & _ & _ & _ & _ & Hp).
  destruct ev as [f | | | | o | o].
  - destruct (rendered s f); intros [].
  - destruct ((step s =? 1) || (step s =? 2)); intros [].
  - intros [].
  - destruct ((step s =? 3) && negb (isSubmitting s)) eqn:Hsubmit;
      [| intros []].
    apply andb_true_iff in Hsubmit. destruct Hsubmit as [H3 _].
    apply Z.eqb_eq in H3.
    destruct (drive_handleSubmit_cont user date s) as (k & -> & _).
    intros [Hev | []]. injection Hev as <-. auto.
  - destruct pend as [[req k | req k] |]; try (intros []).
    destruct Hp as [_ Hk]. specialize (Hk date o s).
    destruct o as [created | err].
    + destruct Hk as (k' & -> & _). intros [Hev | []]. discriminate Hev.
    + rewrite Hk. intros [].
  - destruct pend as [[req k | req k] |]; try (intros []).
    destruct Hp as [_ Hk]. destruct (Hk date o s) as [r ->].
    intros [Hev | []]. discriminate Hev.
Qed.

(** X3: the component sends a create request only on the click on "Create
    Student Profile" on step 3, and the draft it is built from has passed
    both validations: name and email are not empty, the parent's name and
    email are sent and not empty for an account with a parent and absent
    otherwise, a fee status was chosen, and the CGPA sent is neither below
    0 nor above 10. *)
Theorem X3_create_request_is_validated (user : option User) (date : string)
    (c : Component) (ev : UIEvent) (p : AddStudentRequest) :
  reachable c ->
  In (EvAddStudent p) (snd (react user date c ev)) ->
  ev = ClickSubmit
  /\ p = addStudentRequest (studentData (ui c)) user
  /\ req_full_name p <> ""%string
  /\ req_email p <> ""%string
  /\ match role (studentData (ui c)) with
     | RoleParent =>
         req_account_type p = "student_and_parent"%string
         /\ (exists n, req_parent_name p = Some n /\ n <> ""%string)
         /\ (exists e, req_parent_email p = Some e /\ e <> ""%string)
     | RoleStudent =>
         req_account_type p = "student"%string
         /\ req_parent_name p = None /\ req_parent_email p = None
     end
  /\ feeStatus (studentData (ui c)) <> FeeUnset
  /\ lt (req_current_cgpa p) (of_Z 0) = false
  /\ gt (req_current_cgpa p) (of_Z 10) = false.
Proof.
  intros Hreach Hin. apply reachable_wellFormed in Hreach.
  destruct (@create_request_turn user date c ev p Hreach Hin) as (Hev & H3 & ->).
  destruct Hreach as (_ & H1 & H2 & _).
  destruct (H1 ltac:(lia)) as (Hname & Hemail & Hparent).
  destruct (step2_accepted _ (H2 H3)) as (_ & _ & Hfee & _ & Hlo & Hhi & _).
  cbn [req_full_name req_email req_account_type req_parent_name
       req_parent_email req_current_cgpa addStudentRequest].
  conjs; try assumption; try reflexivity.
  destruct (role (studentData (ui c))); cbn [role_eqb].
  - auto.
  - destruct (Hparent eq_refl) as [Hpn Hpe].
    split; [reflexivity |]. split; eexists; split; try reflexivity; assumption.
Qed.

Lemma X3_create_request_is_validated_witness :
  reachable reviewing
  /\ In (EvAddStudent (addStudentRequest draft mentor))
        (snd (react mentor "2025-09-01" reviewing ClickSubmit))
  /\ req_full_name (addStudentRequest draft mentor) <> ""%string
  /\ gt (req_current_cgpa (addStudentRequest draft mentor)) (of_Z 10) = false.
Proof.
  assert (Hreach : reachable reviewing)
    by (apply (reacts_reachable mentor "2025-09-01"); constructor).
  assert (Hin : In (EvAddStudent (addStudentRequest draft mentor))
                   (snd (react mentor "2025-09-01" reviewing ClickSubmit)))
    by (left; reflexivity).
  split; [exact Hreach |]. split; [exact Hin |].
  destruct (@X3_create_request_is_validated mentor "2025-09-01" reviewing
              ClickSubmit (addStudentRequest draft mentor) Hreach Hin)
    as (_ & _ & Hname & _ & _ & _ & _ & Hhi).
  split; assumption.
Defined.

(** X4: the alert is drawn on step 3 only, so the messages of the two
    validations are never on screen: after "Next" on step 1 or 2 no alert
    is shown, also when the step stays and a message is set; and whenever
    the component does show an alert, its text is the one of a failed
    creation. *)
Theorem X4_only_creation_failure_is_shown (c : Component) :
  reachable c ->
  (errorShown (ui c) = true ->
   error (ui c) = "An error occurred while creating the student profile"%string)
  /\ (step (ui c) = 1 \/ step (ui c) = 2 ->
      errorShown (handleNext (ui c)) = false
      /\ (step (handleNext (ui c)) = step (ui c) ->
          error (handleNext (ui c)) <> ""%string)).
Proof.
  intros Hreach. apply reachable_wellFormed in Hreach.
  destruct Hreach as (_ & _ & _ & _ & H4 & _). unfold errorShown.
  split.
  - intros Hshown. apply andb_true_iff in Hshown.
    destruct Hshown as [H3 Herr]. apply Z.eqb_eq in H3.
    apply truthy_nonempty in Herr.
    destruct (H4 H3) as [Hempty | Hfailed]; [contradiction | exact Hfailed].
  - intros [Hs | Hs].
    + destruct (handleNext_step1 (ui c) Hs)
        as [[_ ->] | [_ (msg & Hmsg & ->)]];
        cbn [step error setStep setError]; rewrite ?Hs.
      * split; [reflexivity | intros H; discriminate H].
      * split; [reflexivity | intros _; exact Hmsg].
    + destruct (handleNext_step2_cases (ui c) Hs)
        as [[_ ->] | [_ (msg & Hmsg & ->)]];
        cbn [step error setStep setError]; rewrite ?Hs.
      * split; [reflexivity | intros H; discriminate H].
      * split; [reflexivity | intros _; exact Hmsg].
Qed.

Lemma X4_only_creation_failure_is_shown_witness :
  reachable afterFailure
  /\ errorShown (ui afterFailure) = true
  /\ error (ui afterFailure)
     = "An error occurred while creating the student profile"%string
  /\ reachable mount
  /\ error (handleNext (ui mount))
     = "Please provide student name and email"%string
  /\ errorShown (handleNext (ui mount)) = false.
Proof.
  assert (Hfailed : reachable afterFailure)
    by (apply (reacts_reachable mentor "2025-09-01"); constructor).
  split; [exact Hfailed |]. split; [reflexivity |].
  split; [exact (proj1 (X4_only_creation_failure_is_shown Hfailed) eq_refl) |].
  split; [constructor |]. split; [reflexivity |].
  exact (proj1 (proj2 (X4_only_creation_failure_is_shown reach_mount)
                  (or_introl eq_refl))).
Defined.

(** While the submitting flag is on, nothing the user does has an effect. *)
Lemma submitting_frozen (user : option User) (date : string)
    (c : Component) (ev : UIEvent) :
  wellFormed c -> isSubmitting (ui c) = true ->
  isSettlement ev = false \/ pending c = None ->
  react user date c ev = (c, []).
Proof.
  destruct c as [s pend]. unfold wellFormed, react; cbn [ui pending].
  intros (_ & _ & _ & H3 & _) Hflag Hev. specialize (H3 Hflag).
  destruct ev as [f | | | | o | o]; cbn [isSettlement] in Hev.
  - destruct (rendered s f) eqn:Hf; [| reflexivity].
    destruct (rendered_step s f Hf); lia.
  - rewrite H3. reflexivity.
  - unfold clickPrevious. rewrite H3, Hflag. reflexivity.
  - rewrite H3, Hflag. reflexivity.
  - destruct Hev as [Hev | ->]; [discriminate Hev | reflexivity].
  - destruct Hev as [Hev | ->]; [discriminate Hev | reflexivity].
Qed.

(** X5: while the submitting flag is on (from the click on "Create Student
    Profile" on), the form is frozen: a change of an input, "Next",
    "Previous" and a second click on the submit button leave the component
    as it is and send nothing; only the settlement of the pending call
    goes on.  So no second create request leaves while one is in
    flight. *)
Theorem X5_frozen_while_submitting (c : Component) :
  reachable c -> isSubmitting (ui c) = true ->
  step (ui c) = 3
  /\ forall (user : option User) (date : string) (ev : UIEvent),
       isSettlement ev = false \/ pending c = None ->
       react user date c ev = (c, []).
Proof.
  intros Hreach Hflag. apply reachable_wellFormed in Hreach.
  split.
  - destruct Hreach as (_ & _ & _ & H3 & _). exact (H3 Hflag).
  - intros user date ev Hev. apply submitting_frozen; assumption.
Qed.

Lemma X5_frozen_while_submitting_witness :
  reachable submitting
  /\ isSubmitting (ui submitting) = true
  /\ react mentor "2025-09-01" submitting ClickSubmit = (submitting, [])
  /\ react mentor "2025-09-01" submitting (Change (FName "Someone Else"))
     = (submitting, []).
Proof.
  assert (Hreach : reachable submitting)
    by (apply (reacts_reachable mentor "2025-09-01"); constructor).
  split; [exact Hreach |]. split; [reflexivity |].
  destruct (X5_frozen_while_submitting Hreach eq_refl) as [_ Hfrozen].
  split; apply Hfrozen; left; reflexivity.
Defined.

(** X6: when the predict call settles, with a level or with a failure,
    the handler calls [onStudentAdded] exactly once and ends; the
    submitting flag is still on, and from then on no event of any kind
    changes the component or sends anything: after a successful submission
    the wizard cannot submit again. *)
Theorem X6_inert_after_success (c : Component) :
  reachable c -> awaitsPredict c = true ->
  forall (user : option User) (date : string) (o : Outcome RiskResponse),
    exists r,
      react user date c (PredictRiskSettled o)
      = ({| ui := ui c; pending := None |}, [EvStudentAdded r])
      /\ isSubmitting (ui c) = true
      /\ forall (user' : option User) (date' : string) (ev : UIEvent),
           react user' date' {| ui := ui c; pending := None |} ev
           = ({| ui := ui c; pending := None |}, []).
Proof.
  intros Hreach Hawait user date o.
  pose proof (reachable_wellFormed Hreach) as Hwf.
  unfold awaitsPredict in Hawait.
  destruct c as [s pend]; cbn [ui pending] in *.
  destruct pend as [[p k | p k] |]; try discriminate Hawait.
  destruct Hwf as (Hv & H1 & H2 & H3 & H4 & Hflag & Hk).
  cbn [ui pending] in *.
  destruct (Hk date o s) as [r Hr].
  exists r. unfold react at 1; cbn [ui pending]. rewrite Hr.
  split; [reflexivity |]. split; [exact Hflag |].
  intros user' date' ev. apply submitting_frozen.
  - unfold wellFormed; cbn [ui pending]. conjs; try assumption. exact I.
  - exact Hflag.
  - right; reflexivity.
Qed.

Lemma X6_inert_after_success_witness :
  reachable awaitingPredict
  /\ awaitsPredict awaitingPredict = true
  /\ (exists r,
        snd (react mentor "2025-09-01" awaitingPredict
               (PredictRiskSettled (Rejected "timeout")))
        = [EvStudentAdded r])
  /\ react mentor "2025-09-01" afterSuccess ClickSubmit = (afterSuccess, []).
Proof.
  assert (Hreach : reachable awaitingPredict)
    by (apply (reacts_reachable mentor "2025-09-01"); constructor).
  split; [exact Hreach |]. split; [reflexivity |].
  destruct (@X6_inert_after_success awaitingPredict Hreach eq_refl
              mentor "2025-09-01" (Rejected "timeout"))
    as (r & Hturn & _ & Hinert).
  split.
  - exists r. rewrite Hturn. reflexivity.
  - exact (Hinert mentor "2025-09-01" ClickSubmit).
Defined.

(** X7: when the create call succeeds, whatever the predict call does,
    the callback is called exactly once, and the record it gets takes
    identifier, name, email, CGPA, attendance and backlogs from the
    backend's answer (not from the draft), the fee status from the draft
    (not from the answer), and carries one public note of type "general"
    dated today, signed with the user's name, or with "Mentor" when nobody
    is signed in or the name is empty. *)
Theorem X7_record_provenance (b : Backend) (user : option User)
    (s : WizardState) (created : Created) :
  addStudent b (addStudentRequest (studentData s) user) = Fulfilled created ->
  exists r n,
    trace (submit b user s)
    = [EvAddStudent (addStudentRequest (studentData s) user);
       EvPredictRisk (predictRiskRequest created);
       EvStudentAdded r]
    /\ rec_id r = String_of_id (created_id created)
    /\ rec_name r = created_full_name created
    /\ rec_email r = created_email created
    /\ rec_cgpa r = created_current_cgpa created
    /\ rec_attendance r = created_attendance_percentage created
    /\ rec_backlogs r = created_backlogs created
    /\ rec_feeStatus r = feeStatus (studentData s)
    /\ counselingNotes r = [n]
    /\ note_date n = today b
    /\ mentorName n = mentorNameOf user
    /\ note_type n = "general"%string
    /\ isPrivate n = false.
Proof.
  intros Hcreate.
  pose proof (submit_cases b user s) as H. cbv zeta in H.
  rewrite Hcreate in H. rewrite H.
  eexists. eexists. split; [reflexivity |].
  cbn [newStudentRecord rec_id rec_name rec_email rec_cgpa rec_attendance
       rec_backlogs rec_feeStatus counselingNotes].
  conjs; try reflexivity.
  cbn [mentorName]. unfold mentorNameOf, or_string.
  destruct user as [u |]; reflexivity.
Qed.

Lemma X7_record_provenance_witness :
  addStudent backend_tidy
    (addStudentRequest draft_as_typed None)
  = Fulfilled
      {| created_id := 204;
         created_full_name := "Asha Rao";
         created_email := "asha.rao@student.edu";
         created_current_cgpa := parseFloat "7.5";
         created_attendance_percentage := parseFloat "85";
         created_fee_status := "payment_pending";
         created_backlogs := parseInt "1" |}
  /\ exists r n,
       In (EvStudentAdded r)
          (trace (submit backend_tidy None (at_step 3 draft_as_typed)))
       /\ rec_id r = "204"%string
       /\ rec_name r = "Asha Rao"%string
       /\ rec_feeStatus r = FeePending
       /\ counselingNotes r = [n]
       /\ mentorName n = "Mentor"%string.
Proof.
  assert (Hcreate :
            addStudent backend_tidy (addStudentRequest draft_as_typed None)
            = Fulfilled
                {| created_id := 204;
                   created_full_name := "Asha Rao";
                   created_email := "asha.rao@student.edu";
                   created_current_cgpa := parseFloat "7.5";
                   created_attendance_percentage := parseFloat "85";
                   created_fee_status := "payment_pending";
                   created_backlogs := parseInt "1" |})
    by (vm_compute; reflexivity).
  split; [exact Hcreate |].
  destruct (@X7_record_provenance backend_tidy None (at_step 3 draft_as_typed)
              _ Hcreate)
    as (r & n & Htrace & Hid & Hname & _ & _ & _ & _ & Hfee & Hnotes & _
        & Hmentor & _).
  exists r, n. rewrite Htrace.
  split; [right; right; left; reflexivity |].
  split; [rewrite Hid; reflexivity |].
  split; [exact Hname |].
  split; [exact Hfee |].
  split; [exact Hnotes | exact Hmentor].
Defined.

(** X15: going back and forth loses nothing and never gets stuck: in
    every state the component can be in, on step 2 or 3 with the
    submitting flag off, "Previous" followed by "Next" comes back to the
    same step with the same draft, the validation passing again; only the
    error message is reset. *)
Theorem X15_previous_then_next (user : option User) (date : string)
    (c : Component) :
  reachable c -> isSubmitting (ui c) = false -> 2 <= step (ui c) ->
  fst (reacts user date c [ClickPrevious; ClickNext])
  = {| ui := setError "" (ui c); pending := pending c |}
  /\ snd (reacts user date c [ClickPrevious; ClickNext]) = [].
Proof.
  intros Hreach Hidle Hge. apply reachable_wellFormed in Hreach.
  destruct Hreach as (Hv & H1 & H2 & _).
  destruct c as [s pend]; cbn [ui pending] in *.
  unfold reacts, react; cbn [ui pending]. unfold clickPrevious.
  destruct Hv as [Hs | [Hs | Hs]]; [lia | |]; rewrite Hs, Hidle;
    cbn [Z.eqb Pos.eqb orb ui pending step setStep fst snd app].
  - assert (Hs1 : step (setStep 1 s) = 1) by reflexivity.
    destruct (handleNext_step1 _ Hs1) as [[_ ->] | [Hbad _]];
      [| exfalso; apply Hbad; apply H1; lia].
    split; [| reflexivity].
    destruct s; cbn in *; subst; reflexivity.
  - assert (Hs2 : step (setStep 2 s) = 2) by reflexivity.
    destruct (handleNext_step2_cases _ Hs2) as [[_ ->] | [Hbad _]];
      [| cbn [studentData setStep] in Hbad; rewrite (H2 Hs) in Hbad;
         discriminate Hbad].
    split; [| reflexivity].
    destruct s; cbn in *; subst; reflexivity.
Qed.

Lemma X15_previous_then_next_witness :
  reachable reviewing
  /\ isSubmitting (ui reviewing) = false
  /\ 2 <= step (ui reviewing)
  /\ ui (fst (reacts mentor "2025-09-01" afterFailure
                [ClickPrevious; ClickNext]))
     = setError "" (ui afterFailure)
  /\ fst (reacts mentor "2025-09-01" reviewing [ClickPrevious; ClickNext])
     = reviewing.
Proof.
  assert (Hreach : reachable reviewing)
    by (apply (reacts_reachable mentor "2025-09-01"); constructor).
  split; [exact Hreach |]. split; [reflexivity |].
  split; [vm_compute; discriminate |].
  split; [reflexivity |].
  rewrite (proj1 (@X15_previous_then_next mentor "2025-09-01" reviewing
                    Hreach eq_refl ltac:(vm_compute; discriminate))).
  reflexivity.
Defined.

(* ================================================================== *)
(** ** The matcher and the strings of a pattern *)
(* ================================================================== *)

Module RegexFacts.
Import Regex.
Local Open Scope string_scope.


Lemma append_nil_r (s : string) : s ++ "" = s.
Proof. induction s as [| c s IH]; simpl; [| rewrite IH]; reflexivity. Qed.

Lemma append_assoc (s1 s2 s3 : string) :
  (s1 ++ s2) ++ s3 = s1 ++ (s2 ++ s3).
Proof. induction s1 as [| c s1 IH]; simpl; [| rewrite IH]; reflexivity. Qed.













End RegexFacts.

(* ================================================================== *)
(** ** The registration form *)
(* ================================================================== *)

Module RegisterFacts.
Import JS Wizard Regex RegexFacts Register RegisterSamples.
Local Open Scope string_scope.



(** *** [trim] and [toLowerCase] *)







(** *** [handleSubmit] *)

(** The three checks, in the order the handler makes them. *)
Lemma handleSubmit_checked (api : RegisterRequest -> Outcome unit)
    (s : FormState) :
  let p := payloadOf s in
  let fresh := withSuccess None (withError None s) in
  (exists msg,
      handleSubmit api s = (withError (Some msg) fresh, [])
      /\ ((reg_full_name p = "" \/ reg_email p = ""
           \/ reg_password p = "" \/ reg_expertise p = "")
          /\ msg = "All fields are required."
          \/ (reg_full_name p <> "" /\ reg_email p <> ""
              /\ reg_password p <> "" /\ reg_expertise p <> "")
             /\ (isValidEmail (reg_email p) = false
                 /\ msg = "Please enter a valid email address."
                 \/ isValidEmail (reg_email p) = true
                    /\ (String.length (reg_password p) < 6)%nat
                    /\ msg = "Password must be at least 6 characters.")))
  \/ ((reg_full_name p <> "" /\ reg_email p <> ""
       /\ reg_password p <> "" /\ reg_expertise p <> "")
      /\ isValidEmail (reg_email p) = true
      /\ (6 <= String.length (reg_password p))%nat
      /\ handleSubmit api s
         = match api p with
           | Fulfilled _ =>
               (withLoading false
                  (cleared
                     (withSuccess
                        (Some "Registration successful. Redirecting to login…")
                        (withLoading true fresh))),
                [EvRegister p; EvTimer 1200])
           | Rejected msg =>
               (withLoading false
                  (withError
                     (Some (or_string msg
                              "Something went wrong. Please try again."))
                     (withLoading true fresh)),
                [EvRegister p])
           end).
Proof.
  intros p fresh. unfold handleSubmit. fold p. cbv zeta. fold fresh.
  destruct (truthy (reg_full_name p)) eqn:H1; cbn [negb orb].
  2: { left. eexists. split; [reflexivity |]. left.
       apply truthy_empty in H1. auto. }
  destruct (truthy (reg_email p)) eqn:H2; cbn [negb orb].
  2: { left. eexists. split; [reflexivity |]. left.
       apply truthy_empty in H2. auto. }
  destruct (truthy (reg_password p)) eqn:H3; cbn [negb orb].
  2: { left. eexists. split; [reflexivity |]. left.
       apply truthy_empty in H3. auto. }
  destruct (truthy (reg_expertise p)) eqn:H4; cbn [negb orb].
  2: { left. eexists. split; [reflexivity |]. left.
       apply truthy_empty in H4. auto. }
  apply truthy_nonempty in H1, H2, H3, H4.
  destruct (isValidEmail (reg_email p)) eqn:Hmail; cbn [negb].
  2: { left. eexists. split; [reflexivity |]. right. auto 6. }
  destruct (Z.ltb_spec (Z.of_nat (String.length (reg_password p))) 6)
    as [Hshort | Hlong].
  { left. eexists. split; [reflexivity |]. right.
    split; [auto |]. right. split; [reflexivity |]. split; [lia | reflexivity]. }
  right. split; [auto |]. split; [reflexivity |]. split; [lia |].
  destruct (api p); reflexivity.
Qed.





(** X11: when the request was sent, the loading flag is off afterwards,
    whatever the answer.  On success the four fields are emptied, the
    success message is set, no error is left and one timer of 1200 ms is
    set for the way back to the login; on failure the fields stay as
    typed, the error is the message of the failure, or "Something went
    wrong. Please try again." when it has none, and no timer is set. *)
Theorem X11_register_outcome (api : RegisterRequest -> Outcome unit)
    (s : FormState) :
  snd (handleSubmit api s) <> [] ->
  loading (fst (handleSubmit api s)) = false
  /\ match api (payloadOf s) with
     | Fulfilled _ =>
         handleSubmit api s
         = ({| fullName := ""; email := ""; password := ""; expertise := "";
               loading := false; error := None;
               success :=
                 Some "Registration successful. Redirecting to login…" |},
            [EvRegister (payloadOf s); EvTimer 1200])
     | Rejected msg =>
         handleSubmit api s
         = ({| fullName := fullName s; email := email s;
               password := password s; expertise := expertise s;
               loading := false;
               error := Some (if truthy msg then msg
                              else "Something went wrong. Please try again.");
               success := None |},
            [EvRegister (payloadOf s)])
     end.
Proof.
  intros Hsent.
  destruct (handleSubmit_checked api s) as [(msg & Heq & _) | (_ & _ & _ & Heq)].
  { rewrite Heq in Hsent. contradiction Hsent. reflexivity. }
  rewrite Heq. destruct (api (payloadOf s)) as [[] | msg]; split; reflexivity.
Qed.

Lemma X11_register_outcome_witness :
  snd (handleSubmit api_taken form_as_typed) <> []
  /\ error (fst (handleSubmit api_taken form_as_typed))
     = Some "Email already registered"
  /\ snd (handleSubmit api_silent form_as_typed) <> []
  /\ error (fst (handleSubmit api_silent form_as_typed))
     = Some "Something went wrong. Please try again."
  /\ loading (fst (handleSubmit api_silent form_as_typed)) = false
  /\ password (fst (handleSubmit api_silent form_as_typed)) = "secret1 ".
Proof.
  assert (H1 : snd (handleSubmit api_taken form_as_typed) <> [])
    by discriminate.
  assert (H2 : snd (handleSubmit api_silent form_as_typed) <> [])
    by discriminate.
  split; [exact H1 |].
  split; [rewrite (proj2 (X11_register_outcome api_taken form_as_typed H1));
          reflexivity |].
  split; [exact H2 |].
  rewrite (proj2 (X11_register_outcome api_silent form_as_typed H2)).
  repeat split.
Defined.

End RegisterFacts.

(* ================================================================== *)
(** ** The validated input *)
(* ================================================================== *)

Module ValidatedInputFacts.
Import ValidatedInput.
Local Open Scope list_scope.

Section Runs.
Variable Rule : Type.
Variable validateField : string -> Rule -> Validity.
Variable props : Props Rule.

Lemma inputRuns_cons (s : InputState) (ev : InputEvent)
    (evs : list InputEvent) :
  inputRuns validateField props s (ev :: evs)
  = (fst (inputRuns validateField props
            (fst (inputReact validateField props s ev)) evs),
     snd (inputReact validateField props s ev)
     ++ snd (inputRuns validateField props
               (fst (inputReact validateField props s ev)) evs)).
Proof.
  simpl. destruct (inputReact validateField props s ev) as [s1 out1].
  cbn [fst snd].
  destruct (inputRuns validateField props s1 evs) as [s2 out2]. reflexivity.
Qed.

(** The field is touched once it was blurred, and stays so. *)
Lemma inputRuns_touched (evs : list InputEvent) :
  forall s,
    touched (fst (inputRuns validateField props s evs))
    = touched s || existsb isBlur evs.
Proof.
  induction evs as [| ev evs IH]; intros s.
  - simpl. rewrite orb_false_r. reflexivity.
  - rewrite inputRuns_cons. cbn [fst]. rewrite IH.
    destruct ev as [v | v | [v |]]; cbn; try reflexivity.
    rewrite orb_true_r. reflexivity.
Qed.

(** Without a rule nothing is ever found wrong. *)
Lemma inputRuns_no_rule (evs : list InputEvent) :
  validation props = None ->
  forall s,
    errs s = [] ->
    errs (fst (inputRuns validateField props s evs)) = []
    /\ forall ok es,
         In (Validated ok es) (snd (inputRuns validateField props s evs)) ->
         ok = true /\ es = [].
Proof.
  intros Hnone.
  assert (Hone : forall s ev,
             errs s = [] ->
             errs (fst (inputReact validateField props s ev)) = []
             /\ forall ok es,
                  In (Validated ok es)
                     (snd (inputReact validateField props s ev)) ->
                  ok = true /\ es = []).
  { intros s ev Hs.
    destruct ev as [v | v | [v |]]; cbn;
      unfold validateValue; rewrite ?Hnone; cbn;
      (split; [try reflexivity; try exact Hs |]);
      intros ok es Hin;
      repeat match goal with
             | H : In _ (optionally ?g _ ++ _) |- _ =>
                 destruct g; cbn in H
             | H : In _ (optionally ?g _) |- _ => destruct g; cbn in H
             | H : _ \/ _ |- _ => destruct H as [H | H]
             | H : Validated _ _ = Validated _ _ |- _ =>
                 injection H as <- <-; auto
             | H : _ = Validated _ _ |- _ => discriminate H
             | H : False |- _ => destruct H
             end. }
  induction evs as [| ev evs IH]; intros s Hs.
  - split; [exact Hs | intros ok es []].
  - rewrite inputRuns_cons. cbn [fst snd].
    destruct (Hone s ev Hs) as [Hs1 Hout1].
    destruct (IH _ Hs1) as [Hs2 Hout2].
    split; [exact Hs2 |].
    intros ok es Hin. apply in_app_or in Hin. destruct Hin; eauto.
Qed.

End Runs.

(** X12: the messages of a validated input are drawn only once the input
    was blurred: whatever is typed, and whatever value the parent sets,
    nothing is drawn before the first blur, and a blurred input stays
    touched.  An input without a rule never draws a message, and all it
    reports to [onValidation] is "valid, no errors". *)
Theorem X12_messages_after_blur (Rule : Type)
    (validateField : string -> Rule -> Validity) (props : Props Rule)
    (evs : list InputEvent) :
  (existsb isBlur evs = false ->
   hasErrors (fst (inputRuns validateField props initialInput evs)) = false)
  /\ (existsb isBlur evs = true ->
      touched (fst (inputRuns validateField props initialInput evs)) = true)
  /\ (validation props = None ->
      hasErrors (fst (inputRuns validateField props initialInput evs)) = false
      /\ forall ok es,
           In (Validated ok es)
              (snd (inputRuns validateField props initialInput evs)) ->
           ok = true /\ es = []).
Proof.
  pose proof (inputRuns_touched validateField props evs initialInput) as Ht.
  cbn [touched initialInput orb] in Ht.
  split; [| split].
  - intros Hnever. unfold hasErrors. rewrite Ht, Hnever. reflexivity.
  - intros Hblur. rewrite Ht. exact Hblur.
  - intros Hnone.
    destruct (inputRuns_no_rule validateField props evs Hnone initialInput
                eq_refl) as [Herrs Hout].
    split; [| exact Hout].
    unfold hasErrors. rewrite Herrs. apply andb_false_r.
Qed.

Lemma X12_messages_after_blur_witness :
  errs (fst (inputRuns requiredRule requiredProps initialInput
               [ValueEffect (Some ""%string); OnChange "a"; OnChange ""]))
  = ["This field is required"%string]
  /\ hasErrors (fst (inputRuns requiredRule requiredProps initialInput
                       [ValueEffect (Some ""%string); OnChange "a";
                        OnChange ""]))
     = false
  /\ hasErrors (fst (inputRuns requiredRule requiredProps initialInput
                       [OnChange ""; OnBlur ""]))
     = true.
Proof.
  split; [reflexivity |].
  split; [| reflexivity].
  exact (proj1 (X12_messages_after_blur requiredRule requiredProps
                  [ValueEffect (Some ""%string); OnChange "a"; OnChange ""])
           eq_refl).
Defined.

End ValidatedInputFacts.

(* ================================================================== *)
(** ** The views of the application *)
(* ================================================================== *)

Module AppFacts.
Import App.
Local Open Scope list_scope.
Local Open Scope Z_scope.




(** X14: what is on screen.  While the session is loading it is the
    loading screen; a user with the role "student" or "parent" gets their
    own dashboard whatever the state of the views, so no sequence of
    callbacks brings them to a mentor screen; and the update screen is on
    exactly when a user of another role is signed in, the view is the
    update view and a student is selected, and it shows that student. *)
Theorem X14_screen_by_role (Student : Type) (auth : Auth)
    (st : AppState Student) :
  (isLoading auth = true -> render auth st = ScreenLoading Student)
  /\ (isLoading auth = false ->
      (userRole auth = Some "student"%string ->
       forall evs, render auth (appRuns st evs) = ScreenStudentDashboard Student)
      /\ (userRole auth = Some "parent"%string ->
          forall evs,
            render auth (appRuns st evs) = ScreenParentDashboard Student))
  /\ (forall x,
        render auth st = ScreenMentorUpdate x <->
        isLoading auth = false
        /\ (exists r, userRole auth = Some r
                      /\ r <> "student"%string /\ r <> "parent"%string)
        /\ currentView st = ViewMentorUpdate
        /\ selectedStudent st = Some x).
Proof.
  unfold render. split; [| split].
  - intros ->. reflexivity.
  - intros ->. split; intros -> evs; reflexivity.
  - intros x. split.
    + destruct (isLoading auth); [discriminate |].
      destruct (userRole auth) as [r |];
        [| destruct (authView st); discriminate].
      destruct (String.eqb_spec r "student"); [discriminate |].
      destruct (String.eqb_spec r "parent"); [discriminate |].
      destruct (currentView st); destruct (selectedStudent st);
        try discriminate.
      intros H. injection H as ->. eauto 8.
    + intros (-> & (r & -> & Hs & Hp) & -> & ->).
      destruct (String.eqb_spec r "student"); [contradiction |].
      destruct (String.eqb_spec r "parent"); [contradiction |].
      reflexivity.
Qed.

End AppFacts.
